(** * LogicReducer.py: the table-to-minterm compiler

    A shallow embedding of [src/LogicReducer.py]: the Python string
    primitives the script relies on, the wildcard expansion
    [fromRowToNumbers], and the body of [main] from the point where the
    lines of the truth table have been read.

    Modelling conventions.
    - A Python [str] is a list of characters; a character is a code point
      below 256 (type [ascii]).
    - A Python [int] is a [Z]; conversions between integers and text are
      unbounded.
    - An uncaught exception ends the run: fallible code returns [result].
    - The external reducer is a parameter of [main]; the file system and
      the argument parser are outside the model, [main] starts from the
      list returned by [readlines()]. *)

From Stdlib Require Import String Ascii List ZArith Bool Arith Lia.
From Stdlib Require Import DecimalString DecimalZ DecimalPos Sorted.
From Equations Require Import Equations.
Import ListNotations.

Local Open Scope char_scope.
Local Open Scope list_scope.

#[local] Arguments Ascii.eqb : simpl never.

(** ** Strings and exceptions *)

Definition str := list ascii.

(** A string literal of the source. *)
Definition lit (s : string) : str := list_ascii_of_string s.

Definition str_eqb (a b : str) : bool :=
  if list_eq_dec ascii_dec a b then true else false.

Inductive exn : Type :=
| IndexError
| ValueError (literal : str)
| CalledProcessError.

Inductive result (A : Type) : Type :=
| Ok (a : A)
| Raise (e : exn).
Arguments Ok {A} a.
Arguments Raise {A} e.

Definition bind {A B} (r : result A) (k : A -> result B) : result B :=
  match r with
  | Ok a => k a
  | Raise e => Raise e
  end.

Notation "x <- r ;; k" := (bind r (fun x => k))
  (at level 61, r at next level, right associativity).

(** ** Python primitives used by the script *)

Module Py.

(** [str.isspace] on one character: what [str.strip()] removes. *)
Definition isspace (c : ascii) : bool :=
  let n := nat_of_ascii c in
  (((9 <=? n) && (n <=? 13)) || ((28 <=? n) && (n <=? 32))
   || (n =? 133) || (n =? 160))%nat.

(** The blanks [int()] skips around a literal: C [isspace], and the two
    non-ASCII blanks that are turned into a space beforehand. *)
Definition int_isspace (c : ascii) : bool :=
  let n := nat_of_ascii c in
  (((9 <=? n) && (n <=? 13)) || (n =? 32) || (n =? 133) || (n =? 160))%nat.

Fixpoint lstrip (s : str) : str :=
  match s with
  | c :: r => if isspace c then lstrip r else s
  | [] => []
  end.

Definition rstrip (s : str) : str := rev (lstrip (rev s)).

(** [s.strip()] *)
Definition strip (s : str) : str := rstrip (lstrip s).

(** [s.split(sep)] for a one-character separator: never empty, empty
    pieces are kept. *)
Fixpoint split (sep : ascii) (s : str) : list str :=
  match s with
  | [] => [[]]
  | c :: r =>
      if Ascii.eqb c sep then [] :: split sep r
      else match split sep r with
           | p :: ps => (c :: p) :: ps
           | [] => [[c]]
           end
  end.

(** [old in s] *)
Definition contains (old : ascii) (s : str) : bool :=
  existsb (Ascii.eqb old) s.

(** [s.replace(old, new)] *)
Fixpoint replace (old : ascii) (new : str) (s : str) : str :=
  match s with
  | [] => []
  | c :: r =>
      if Ascii.eqb c old then new ++ replace old new r
      else c :: replace old new r
  end.

(** [s.replace(old, new, count)] *)
Fixpoint replace_count (old : ascii) (new : str) (count : nat) (s : str)
  : str :=
  match count, s with
  | O, _ => s
  | _, [] => []
  | S count', c :: r =>
      if Ascii.eqb c old then new ++ replace_count old new count' r
      else c :: replace_count old new count r
  end.

Definition is_bit (c : ascii) : bool := Ascii.eqb c "0" || Ascii.eqb c "1".

Definition bit_value (c : ascii) : Z := if Ascii.eqb c "1" then 1%Z else 0%Z.

(** The digit loop of [int(s, 2)]: binary digits, single underscores
    between them; stops at the first other character and hands back the
    rest. [prev] is the character consumed last. *)
Fixpoint scan_digits (prev : option ascii) (acc : Z) (s : str)
  : option (Z * str) :=
  let finish :=
    match prev with
    | None => None
    | Some p => if Ascii.eqb p "_" then None else Some (acc, s)
    end in
  match s with
  | [] => finish
  | c :: r =>
      if is_bit c then scan_digits (Some c) (2 * acc + bit_value c)%Z r
      else if Ascii.eqb c "_" then
        match prev with
        | Some p => if Ascii.eqb p "_" then None
                    else scan_digits (Some c) acc r
        | None => None
        end
      else finish
  end.

Fixpoint int_lstrip (s : str) : str :=
  match s with
  | c :: r => if int_isspace c then int_lstrip r else s
  | [] => []
  end.

(** An optional sign in front of the literal. *)
Definition strip_sign (s : str) : bool * str :=
  match s with
  | c :: r =>
      if Ascii.eqb c "+" then (false, r)
      else if Ascii.eqb c "-" then (true, r)
      else (false, s)
  | [] => (false, s)
  end.

(** An optional [0b] or [0B] in front of the digits, and one underscore
    after it. *)
Definition strip_prefix (s : str) : str :=
  match s with
  | c0 :: c1 :: r =>
      if Ascii.eqb c0 "0" && (Ascii.eqb c1 "b" || Ascii.eqb c1 "B") then
        match r with
        | c2 :: r' => if Ascii.eqb c2 "_" then r' else r
        | [] => r
        end
      else s
  | _ => s
  end.

(** [int(s, 2)]; [None] stands for [ValueError]. *)
Definition int2 (s : str) : option Z :=
  let '(neg, s2) := strip_sign (int_lstrip s) in
  match scan_digits None 0%Z (strip_prefix s2) with
  | Some (v, rest) =>
      match int_lstrip rest with
      | [] => Some (if neg then (- v)%Z else v)
      | _ :: _ => None
      end
  | None => None
  end.

(** [str(n)] for an integer. *)
Definition str_int (n : Z) : str :=
  list_ascii_of_string (NilEmpty.string_of_int (Z.to_int n)).

(** [sep.join(parts)] *)
Fixpoint join (sep : str) (parts : list str) : str :=
  match parts with
  | [] => []
  | [p] => p
  | p :: ps => p ++ sep ++ join sep ps
  end.

(** [str(l)] for a list of integers. *)
Definition str_list (l : list Z) : str :=
  "[" :: join (lit ", ") (map str_int l) ++ ["]"].

End Py.

(** ** Wildcard expansion *)

Definition count_x (input : str) : nat := count_occ ascii_dec input "x".

(** Replacing the first ['x'] leaves one ['x'] less. *)
Ltac wildcard_decreases :=
  match goal with
  | H : Py.contains "x" ?i = true |- _ =>
      revert H; unfold count_x, Py.contains; clear;
      induction i as [|c r IH]; simpl; intros H; [discriminate|];
      rewrite Ascii.eqb_sym in H;
      destruct (Ascii.eqb_spec c "x") as [->|Hc]; simpl;
      [ destruct r; simpl; lia
      | simpl in H; destruct (ascii_dec c "x");
        [contradiction | apply IH; exact H] ]
  end.

Definition inspect {A : Type} (a : A) : {b : A | a = b} :=
  exist _ a eq_refl.

(** [fromRowToNumbers]: the recursion of the source, on the number of
    ['x'] left in the argument. *)
Equations? fromRowToNumbers (input : str) : result (list Z)
  by wf (count_x input) lt :=
  fromRowToNumbers input with inspect (Py.contains "x" input) => {
    | exist _ true _ =>
        r0 <- fromRowToNumbers (Py.replace_count "x" (lit "0") 1 input) ;;
        r1 <- fromRowToNumbers (Py.replace_count "x" (lit "1") 1 input) ;;
        Ok (r0 ++ r1)
    | exist _ false _ =>
        let input' := Py.replace " " [] input in
        match Py.int2 input' with
        | Some n => Ok [n]
        | None => Raise (ValueError input')
        end }.
Proof.
  all: wildcard_decreases.
Qed.

(** The same recursion with a bound on its depth; [None] when the bound
    is reached. *)
Fixpoint fromRowToNumbers_fuel (fuel : nat) (input : str)
  : option (result (list Z)) :=
  match fuel with
  | O => None
  | S fuel' =>
      if Py.contains "x" input then
        match
          fromRowToNumbers_fuel fuel' (Py.replace_count "x" (lit "0") 1 input)
        with
        | None => None
        | Some (Raise e) => Some (Raise e)
        | Some (Ok r0) =>
            match
              fromRowToNumbers_fuel fuel'
                (Py.replace_count "x" (lit "1") 1 input)
            with
            | None => None
            | Some (Raise e) => Some (Raise e)
            | Some (Ok r1) => Some (Ok (r0 ++ r1))
            end
        end
      else
        let input' := Py.replace " " [] input in
        match Py.int2 input' with
        | Some n => Some (Ok [n])
        | None => Some (Raise (ValueError input'))
        end
  end.

(** ** The body of [main] *)

(** The local variables of [main] that the compilation assigns. *)
Record locals : Type := {
  minterms : list (list Z);
  dnc : list (list Z);
  inputCount : nat;
  outFuncCount : nat
}.

Definition set_minterms (m : list (list Z)) (s : locals) : locals :=
  {| minterms := m; dnc := dnc s;
     inputCount := inputCount s; outFuncCount := outFuncCount s |}.

Definition set_dnc (d : list (list Z)) (s : locals) : locals :=
  {| minterms := minterms s; dnc := d;
     inputCount := inputCount s; outFuncCount := outFuncCount s |}.

Definition set_inputCount (n : nat) (s : locals) : locals :=
  {| minterms := minterms s; dnc := dnc s;
     inputCount := n; outFuncCount := outFuncCount s |}.

Definition set_outFuncCount (n : nat) (s : locals) : locals :=
  {| minterms := minterms s; dnc := dnc s;
     inputCount := inputCount s; outFuncCount := n |}.

(** [l[i]] for [i >= 0]. *)
Definition item {A : Type} (l : list A) (i : nat) : result A :=
  match nth_error l i with
  | Some a => Ok a
  | None => Raise IndexError
  end.

(** [cols[index].extend(inputs)]: the columns are distinct list objects
    (built by a comprehension), so only column [index] changes. *)
Fixpoint extend_at (cols : list (list Z)) (index : nat) (inputs : list Z)
  : result (list (list Z)) :=
  match cols, index with
  | [], _ => Raise IndexError
  | col :: rest, O => Ok ((col ++ inputs) :: rest)
  | col :: rest, S i =>
      rest' <- extend_at rest i inputs ;; Ok (col :: rest')
  end.

(** One iteration of [for index, out in enumerate(outputs)]. *)
Definition classify_one (inputs : list Z) (index : nat) (out : str)
  (s : locals) : result locals :=
  if str_eqb out (lit "1") then
    m <- extend_at (minterms s) index inputs ;; Ok (set_minterms m s)
  else if str_eqb out (lit "x") then
    d <- extend_at (dnc s) index inputs ;; Ok (set_dnc d s)
  else Ok s.

(** [for index, out in enumerate(outputs)], from [index] on. *)
Fixpoint classify (inputs : list Z) (index : nat) (outputs : list str)
  (s : locals) : result locals :=
  match outputs with
  | [] => Ok s
  | out :: rest =>
      s' <- classify_one inputs index out s ;;
      classify inputs (S index) rest s'
  end.

(** The body of [for line in lines]. *)
Definition row (line : str) (s : locals) : result locals :=
  let line := Py.split "|" line in
  seg0 <- item line 0 ;;
  inputs <- fromRowToNumbers (Py.strip seg0) ;;
  seg1 <- item line 1 ;;
  let outputs := Py.split " " (Py.strip seg1) in
  classify inputs 0 outputs s.

(** [for line in lines] *)
Fixpoint rows (lines : list str) (s : locals) : result locals :=
  match lines with
  | [] => Ok s
  | line :: rest => s' <- row line s ;; rows rest s'
  end.

(** Lines 99 to 123 of the source: from the lines read to the filled
    [minterms] and [dnc]. *)
Definition compile (lines : list str) (s : locals) : result locals :=
  let s := set_minterms [] s in
  let s := set_dnc [] s in
  l0 <- item lines 0 ;;
  a <- item (Py.split "|" l0) 0 ;;
  let s := set_inputCount (length (Py.split " " (Py.strip a))) s in
  l0 <- item lines 0 ;;
  b <- item (Py.split "|" l0) 1 ;;
  let s := set_outFuncCount (length (Py.split " " (Py.strip b))) s in
  let s := set_minterms (repeat [] (outFuncCount s)) s in
  let s := set_dnc (repeat [] (outFuncCount s)) s in
  rows lines s.

(** The locals before [main] has assigned anything. *)
Definition unbound : locals :=
  {| minterms := []; dnc := []; inputCount := 0; outFuncCount := 0 |}.

(** What the run shows to the outside. *)
Inductive event : Type :=
| Print (text : str)
| Execute (cmd : str).

Section Reducer.

(** Command-line flags and platform. *)
Variables (verbose colored nt : bool).

(** The external reducer: standard output and standard error of one
    invocation. *)
Variable petrick : str -> str * str.

(** [executeCommand]: an invocation that writes to standard error
    raises. *)
Definition executeCommand (cmd : str) : list event * result unit :=
  let '(out, err) := petrick cmd in
  match err with
  | [] => ([Execute cmd; Print out], Ok tt)
  | _ :: _ => ([Execute cmd], Raise CalledProcessError)
  end.

Definition optionalArgs : str :=
  (if verbose then lit "-v " else []) ++ (if colored then lit "-c" else []).

(** The list arguments of one invocation. *)
Definition mstr (m : list Z) : str := Py.replace " " [] (Py.str_list m).

Definition command (n : nat) (m d : list Z) : str :=
  (if nt then lit "petrick.exe " else lit "./petrick ")
  ++ optionalArgs ++ lit " " ++ Py.str_int (Z.of_nat n)
  ++ lit " " ++ mstr m ++ lit " " ++ mstr d.

(** One command per column, in the order of the columns. *)
Definition commands (n : nat) (cols : list (list Z * list Z)) : list str :=
  map (fun c => command n (fst c) (snd c)) cols.

(** [for index, (m, d) in enumerate(zip(minterms, dnc))], from [index]
    on. *)
Fixpoint report (n : nat) (index : nat) (cols : list (list Z * list Z))
  : list event * result unit :=
  match cols with
  | [] => ([], Ok tt)
  | (m, d) :: rest =>
      let shown :=
        [Print (lit "Q" ++ Py.str_int (Z.of_nat index) ++ lit ": "
                ++ Py.str_list m);
         Print (lit "DNC" ++ Py.str_int (Z.of_nat index) ++ lit ": "
                ++ Py.str_list d)] in
      match executeCommand (command n m d) with
      | (evs, Ok _) =>
          let '(evs', r) := report n (S index) rest in
          (shown ++ evs ++ evs', r)
      | (evs, Raise e) => (shown ++ evs, Raise e)
      end
  end.

(** [main] once the file has been read. *)
Definition main (lines : list str) : list event * result unit :=
  match compile lines unbound with
  | Ok s => report (inputCount s) 0 (combine (minterms s) (dnc s))
  | Raise e => ([], Raise e)
  end.

End Reducer.

(** The commands [main] issues to the reducer, in order. *)
Definition executed (evs : list event) : list str :=
  flat_map (fun e => match e with Execute c => [c] | Print _ => [] end) evs.

(** ** Reference definitions for the statements *)

(** The alphabet of a pattern. *)
Definition symbol (c : ascii) : Prop := c = "0" \/ c = "1" \/ c = "x".

(** An output token of a well-formed row. *)
Definition out_symbol (o : str) : Prop :=
  o = lit "0" \/ o = lit "1" \/ o = lit "x".

(** The characters a pattern may hold without [int(s, 2)] rejecting it
    for their sake: digits, wildcard, the blanks removed or skipped, a
    sign, an underscore, the letter of the [0b] prefix. *)
Definition tolerated (c : ascii) : bool :=
  Py.is_bit c || Ascii.eqb c "x" || Py.int_isspace c || Ascii.eqb c "+"
  || Ascii.eqb c "-" || Ascii.eqb c "_" || Ascii.eqb c "b"
  || Ascii.eqb c "B".

(** Base-2 value of a string of binary digits, most significant first,
    continuing from [acc]. *)
Fixpoint binary (acc : Z) (s : str) : Z :=
  match s with
  | [] => acc
  | c :: r => binary (2 * acc + Py.bit_value c)%Z r
  end.

(** All assignments to [k] wildcards, the first wildcard varying
    slowest, [0] before [1]. *)
Fixpoint assignments (k : nat) : list (list bool) :=
  match k with
  | O => [[]]
  | S k' =>
      map (cons false) (assignments k') ++ map (cons true) (assignments k')
  end.

(** The pattern with its wildcards set, left to right, to the bits of
    an assignment. *)
Fixpoint fill (p : str) (a : list bool) : str :=
  match p with
  | [] => []
  | c :: r =>
      if Ascii.eqb c "x" then
        match a with
        | b :: a' => (if b then "1" else "0") :: fill r a'
        | [] => c :: fill r []
        end
      else c :: fill r a
  end.

(** The expansion the specification describes. *)
Definition expansion (p : str) : list Z :=
  map (fun a => binary 0 (fill p a)) (assignments (count_x p)).

(** A value agrees with the literal bits of a pattern of length [n]:
    position [i] of the pattern is bit [n - 1 - i] of the value. *)
Definition consistent (p : str) (v : Z) : Prop :=
  forall i c, nth_error p i = Some c -> c <> "x" ->
    Z.testbit v (Z.of_nat (length p - 1 - i)) = Ascii.eqb c "1".

(** The values of a pattern, read left to right from [acc]. *)
Fixpoint values (acc : Z) (p : str) : list Z :=
  match p with
  | [] => [acc]
  | c :: r =>
      if Ascii.eqb c "x" then
        values (2 * acc) r ++ values (2 * acc + 1) r
      else values (2 * acc + Py.bit_value c) r
  end.

(** The columns after a row: column [j] gains [inputs] when the row's
    token [j] is [mark]. *)
Fixpoint extend_cols (mark : str) (inputs : list Z) (outputs : list str)
  (cols : list (list Z)) : list (list Z) :=
  match outputs, cols with
  | out :: outs, col :: rest =>
      (if str_eqb out mark then col ++ inputs else col)
      :: extend_cols mark inputs outs rest
  | _, _ => cols
  end.

(** A string without the blank that [replace(" ", "")] removes. *)
Definition no_blank (s : str) : Prop :=
  Forall (fun c => Ascii.eqb c " " = false) s.

(** A token that selects a set. *)
Definition is_mark (out : str) : bool :=
  str_eqb out (lit "1") || str_eqb out (lit "x").

(** Every token that selects no set, read as the deny marker. *)
Definition as_deny (out : str) : str :=
  if is_mark out then out else lit "0".

(** The locals after a row whose tokens all found their column. *)
Definition classified (inputs : list Z) (outputs : list str) (s : locals)
  : locals :=
  {| minterms := extend_cols (lit "1") inputs outputs (minterms s);
     dnc := extend_cols (lit "x") inputs outputs (dnc s);
     inputCount := inputCount s;
     outFuncCount := outFuncCount s |}.

(** The pattern and the tokens of a line, as [row] reads them. *)
Definition row_pattern (line : str) : str :=
  Py.strip (nth 0 (Py.split "|" line) []).

Definition row_tokens (line : str) : list str :=
  Py.split " " (Py.strip (nth 1 (Py.split "|" line) [])).

(** The indices a line expands to; none when its pattern is rejected. *)
Definition row_indices (line : str) : list Z :=
  match fromRowToNumbers (row_pattern line) with
  | Ok l => l
  | Raise _ => []
  end.

(** What a line contributes to the set selected by [mark] in column
    [j]. *)
Definition selected (mark : str) (j : nat) (line : str) : list Z :=
  if str_eqb (nth j (row_tokens line) []) mark then row_indices line
  else [].

(** The line terminator. *)
Definition newline : ascii := ascii_of_nat 10.

(** A line as [readlines()] returns it. *)
Definition line_of (text : string) : str := lit text ++ [newline].

(** The locals once the column counts are known and the sets are empty. *)
Definition fresh (inputs outputs : nat) : locals :=
  {| minterms := repeat [] outputs; dnc := repeat [] outputs;
     inputCount := inputs; outFuncCount := outputs |}.

(** * Properties *)

(** ** The recursion of [fromRowToNumbers] *)

Lemma replace_count_0 (old : ascii) (new s : str) :
  Py.replace_count old new 0 s = s.
Proof. destruct s; reflexivity. Qed.

Lemma replace_first_decreases (input : str) :
  Py.contains "x" input = true ->
  count_x (Py.replace_count "x" (lit "0") 1 input) < count_x input
  /\ count_x (Py.replace_count "x" (lit "1") 1 input) < count_x input.
Proof.
  intros H. split; wildcard_decreases.
Qed.

Lemma fromRowToNumbers_wild (input : str) :
  Py.contains "x" input = true ->
  fromRowToNumbers input =
    (r0 <- fromRowToNumbers (Py.replace_count "x" (lit "0") 1 input) ;;
     r1 <- fromRowToNumbers (Py.replace_count "x" (lit "1") 1 input) ;;
     Ok (r0 ++ r1)).
Proof.
  intros H. funelim (fromRowToNumbers input); [reflexivity | congruence].
Qed.

Lemma fromRowToNumbers_leaf (input : str) :
  Py.contains "x" input = false ->
  fromRowToNumbers input =
    match Py.int2 (Py.replace " " [] input) with
    | Some n => Ok [n]
    | None => Raise (ValueError (Py.replace " " [] input))
    end.
Proof.
  intros H. funelim (fromRowToNumbers input); [congruence | reflexivity].
Qed.

(** Induction along the calls of [fromRowToNumbers]. *)
Lemma wildcard_ind (P : str -> Prop) :
  (forall input, Py.contains "x" input = false -> P input) ->
  (forall input, Py.contains "x" input = true ->
     P (Py.replace_count "x" (lit "0") 1 input) ->
     P (Py.replace_count "x" (lit "1") 1 input) -> P input) ->
  forall input, P input.
Proof.
  intros Hleaf Hwild input.
  remember (count_x input) as k eqn:Hk.
  revert input Hk.
  induction k as [k IH] using lt_wf_ind. intros input ->.
  destruct (Py.contains "x" input) eqn:Hx.
  - destruct (replace_first_decreases input Hx) as [H0 H1].
    apply Hwild;
      [exact Hx | exact (IH _ H0 _ eq_refl) | exact (IH _ H1 _ eq_refl)].
  - apply Hleaf. exact Hx.
Qed.

Lemma fromRowToNumbers_fuel_enough (fuel : nat) :
  forall input, count_x input < fuel ->
    fromRowToNumbers_fuel fuel input = Some (fromRowToNumbers input).
Proof.
  induction fuel as [|fuel IH]; intros input Hlt; [lia|].
  cbn [fromRowToNumbers_fuel]. destruct (Py.contains "x" input) eqn:Hx.
  - destruct (replace_first_decreases input Hx) as [H0 H1].
    rewrite (fromRowToNumbers_wild input Hx).
    rewrite !IH by lia.
    destruct (fromRowToNumbers (Py.replace_count "x" (lit "0") 1 input));
      cbn [bind]; [|reflexivity].
    destruct (fromRowToNumbers (Py.replace_count "x" (lit "1") 1 input));
      reflexivity.
  - rewrite (fromRowToNumbers_leaf input Hx).
    destruct (Py.int2 (Py.replace " " [] input)); reflexivity.
Qed.

(** C8. The wildcard expansion terminates on every input string: each
    of the two recursive calls of [fromRowToNumbers] receives an argument
    with strictly fewer ['x'] than its caller's, and the recursion run
    with a depth bound above the number of ['x'] of its argument always
    returns, with the result of [fromRowToNumbers]. The loops of the
    compilation run over finite lists, so [compile] is total as well. *)
Theorem fromRowToNumbers_terminates (input : str) :
  (Py.contains "x" input = true ->
     count_x (Py.replace_count "x" (lit "0") 1 input) < count_x input
     /\ count_x (Py.replace_count "x" (lit "1") 1 input) < count_x input)
  /\ (forall fuel, count_x input < fuel ->
        fromRowToNumbers_fuel fuel input = Some (fromRowToNumbers input))
  /\ (exists r, fromRowToNumbers_fuel (S (count_x input)) input = Some r).
Proof.
  split; [apply replace_first_decreases|].
  split; [intros fuel; apply fromRowToNumbers_fuel_enough|].
  eexists. apply fromRowToNumbers_fuel_enough. lia.
Qed.

Lemma fromRowToNumbers_terminates_witness :
  (count_x (Py.replace_count "x" (lit "0") 1 (lit "1x0x"))
     < count_x (lit "1x0x")
   /\ count_x (Py.replace_count "x" (lit "1") 1 (lit "1x0x"))
     < count_x (lit "1x0x"))
  /\ fromRowToNumbers_fuel 3 (lit "1x0x")
     = Some (fromRowToNumbers (lit "1x0x")).
Proof.
  destruct (fromRowToNumbers_terminates (lit "1x0x")) as [Hdec [Hfuel _]].
  split.
  - exact (Hdec eq_refl).
  - apply Hfuel. vm_compute. lia.
Defined.

(** ** Patterns over the alphabet *)

Lemma symbol_cases (c : ascii) :
  symbol c ->
  (c = "x" /\ Ascii.eqb c "x" = true)
  \/ (c <> "x" /\ Ascii.eqb c "x" = false /\ Py.is_bit c = true
      /\ Ascii.eqb c " " = false).
Proof.
  intros [-> | [-> | ->]]; [right | right | left];
    repeat split; try reflexivity; discriminate.
Qed.

Lemma no_wildcard_bits (p : str) :
  Forall symbol p -> Py.contains "x" p = false ->
  Forall (fun c => Py.is_bit c = true) p.
Proof.
  unfold Py.contains. induction 1 as [|c r Hc _ IH]; simpl; intros Hx.
  - constructor.
  - apply orb_false_iff in Hx. destruct Hx as [Hcx Hr].
    rewrite Ascii.eqb_sym in Hcx.
    constructor; [|apply IH; exact Hr].
    destruct (symbol_cases c Hc) as [[_ E] | (_ & _ & Hb & _)];
      [congruence | exact Hb].
Qed.

Lemma replace_blank_symbols (p : str) :
  Forall symbol p -> Py.replace " " [] p = p.
Proof.
  induction 1 as [|c r Hc _ IH]; simpl; [reflexivity|].
  destruct Hc as [-> | [-> | ->]]; simpl; rewrite IH; reflexivity.
Qed.

Lemma replace_first_symbols (new : ascii) (p : str) :
  symbol new -> Forall symbol p ->
  Forall symbol (Py.replace_count "x" [new] 1 p)
  /\ length (Py.replace_count "x" [new] 1 p) = length p.
Proof.
  intros Hnew. induction 1 as [|c r Hc Hr IH]; simpl.
  - split; [constructor | reflexivity].
  - destruct (Ascii.eqb c "x").
    + simpl. rewrite replace_count_0. split; [constructor; assumption | reflexivity].
    + destruct IH as [IH1 IH2]. simpl. split; [constructor; assumption | congruence].
Qed.

(** ** [int(s, 2)] on binary digits *)

Lemma bit_cases (c : ascii) :
  Py.is_bit c = true -> c = "0" \/ c = "1".
Proof.
  unfold Py.is_bit. intros H. apply orb_true_iff in H.
  destruct H as [H | H]; apply Ascii.eqb_eq in H; auto.
Qed.

Lemma scan_digits_bits (p : str) :
  Forall (fun c => Py.is_bit c = true) p ->
  forall prev acc,
    (prev = None -> p <> []) ->
    (forall q, prev = Some q -> Ascii.eqb q "_" = false) ->
    Py.scan_digits prev acc p = Some (binary acc p, []).
Proof.
  induction 1 as [|c r Hc _ IH]; intros prev acc Hne Hprev; simpl.
  - destruct prev as [q|]; [|exfalso; apply Hne; reflexivity].
    rewrite (Hprev q eq_refl). reflexivity.
  - rewrite Hc. apply IH; [discriminate|].
    intros q [= <-]. destruct (bit_cases c Hc) as [-> | ->]; reflexivity.
Qed.

Lemma int2_bits (p : str) :
  p <> [] -> Forall (fun c => Py.is_bit c = true) p ->
  Py.int2 p = Some (binary 0 p).
Proof.
  intros Hne Hp. unfold Py.int2.
  destruct Hp as [|c r Hc Hr]; [contradiction|].
  assert (Hs : Py.int_lstrip (c :: r) = c :: r).
  { destruct (bit_cases c Hc) as [-> | ->]; reflexivity. }
  rewrite Hs.
  assert (Hg : Py.strip_sign (c :: r) = (false, c :: r)).
  { destruct (bit_cases c Hc) as [-> | ->]; reflexivity. }
  rewrite Hg.
  assert (Hpre : Py.strip_prefix (c :: r) = c :: r).
  { destruct Hr as [|c1 r1 Hc1 _]; [reflexivity|]. simpl.
    destruct (bit_cases c1 Hc1) as [-> | ->];
      rewrite andb_false_r; reflexivity. }
  rewrite Hpre.
  rewrite (scan_digits_bits (c :: r)); [reflexivity | | discriminate | discriminate].
  constructor; assumption.
Qed.

(** ** The values of a pattern *)

Lemma values_bits (p : str) :
  Py.contains "x" p = false -> forall acc, values acc p = [binary acc p].
Proof.
  unfold Py.contains. induction p as [|c r IH]; simpl; intros Hx acc.
  - reflexivity.
  - apply orb_false_iff in Hx. destruct Hx as [Hcx Hr].
    rewrite Ascii.eqb_sym in Hcx. rewrite Hcx. apply IH. exact Hr.
Qed.

Lemma values_replace_first (p : str) :
  Py.contains "x" p = true ->
  forall acc,
    values acc p =
      values acc (Py.replace_count "x" (lit "0") 1 p)
      ++ values acc (Py.replace_count "x" (lit "1") 1 p).
Proof.
  unfold Py.contains. induction p as [|c r IH]; simpl; intros Hx acc.
  - discriminate.
  - rewrite Ascii.eqb_sym in Hx. destruct (Ascii.eqb c "x") eqn:Hc.
    + simpl. rewrite !replace_count_0. simpl.
      rewrite Z.add_0_r. reflexivity.
    + simpl in Hx. simpl. rewrite Hc. apply IH. exact Hx.
Qed.

Lemma fromRowToNumbers_values (p : str) :
  Forall symbol p -> p <> [] -> fromRowToNumbers p = Ok (values 0 p).
Proof.
  pattern p. apply wildcard_ind; clear p.
  - intros p Hx Hp Hne.
    rewrite (fromRowToNumbers_leaf p Hx), (replace_blank_symbols p Hp).
    rewrite (int2_bits p Hne (no_wildcard_bits p Hp Hx)).
    rewrite (values_bits p Hx). reflexivity.
  - intros p Hx IH0 IH1 Hp Hne.
    destruct (replace_first_symbols "0" p (or_introl eq_refl) Hp)
      as [S0 L0].
    destruct (replace_first_symbols "1" p (or_intror (or_introl eq_refl)) Hp)
      as [S1 L1].
    assert (N : forall q : str, length q = length p -> q <> []).
    { intros q Hq ->. destruct p; [contradiction | discriminate]. }
    rewrite (fromRowToNumbers_wild p Hx).
    rewrite (IH0 S0 (N _ L0)), (IH1 S1 (N _ L1)). cbn [bind].
    rewrite (values_replace_first p Hx). reflexivity.
Qed.

Lemma count_x_cons (c : ascii) (r : str) :
  count_x (c :: r) = if Ascii.eqb c "x" then S (count_x r) else count_x r.
Proof.
  unfold count_x. simpl.
  destruct (ascii_dec c "x") as [-> | Hc]; [reflexivity|].
  apply Ascii.eqb_neq in Hc. rewrite Hc. reflexivity.
Qed.

Lemma values_expansion (p : str) :
  forall acc,
    values acc p =
      map (fun a => binary acc (fill p a)) (assignments (count_x p)).
Proof.
  induction p as [|c r IH]; intros acc; [reflexivity|].
  rewrite count_x_cons. simpl. destruct (Ascii.eqb c "x") eqn:Hc.
  - simpl. rewrite map_app, !map_map. simpl.
    rewrite Z.add_0_r, <- !IH. reflexivity.
  - rewrite IH. reflexivity.
Qed.

Lemma values_length (p : str) :
  forall acc, length (values acc p) = 2 ^ count_x p.
Proof.
  induction p as [|c r IH]; intros acc; [reflexivity|].
  rewrite count_x_cons. simpl. destruct (Ascii.eqb c "x").
  - rewrite length_app, !IH. simpl. lia.
  - apply IH.
Qed.

Lemma shiftr_step (v a b : Z) (m : nat) :
  (b = 0 \/ b = 1)%Z ->
  Z.shiftr v (Z.of_nat m) = (2 * a + b)%Z ->
  Z.shiftr v (Z.of_nat (S m)) = a
  /\ Z.testbit v (Z.of_nat m) = (b =? 1)%Z.
Proof.
  intros Hb Hv. split.
  - rewrite Nat2Z.inj_succ, <- Z.add_1_r, <- Z.shiftr_shiftr by lia.
    rewrite Hv, Z.shiftr_div_pow2 by lia. change (2 ^ 1)%Z with 2%Z.
    destruct Hb as [-> | ->]; [rewrite Z.add_0_r | ];
      [rewrite Z.mul_comm; apply Z.div_mul; lia|].
    rewrite Z.mul_comm, Z.div_add_l by lia.
    change (1 / 2)%Z with 0%Z. lia.
  - replace (Z.of_nat m) with (0 + Z.of_nat m)%Z by lia.
    rewrite <- Z.shiftr_spec by lia. rewrite Hv.
    destruct Hb as [-> | ->].
    + change 0%Z with (Z.b2z false) at 1. apply Z.testbit_0_r.
    + change 1%Z with (Z.b2z true) at 1. apply Z.testbit_0_r.
Qed.

Lemma bit_value_cases (c : ascii) :
  (Py.bit_value c = 0 \/ Py.bit_value c = 1)%Z
  /\ (Py.bit_value c =? 1)%Z = Ascii.eqb c "1".
Proof.
  unfold Py.bit_value. destruct (Ascii.eqb c "1"); auto.
Qed.

(** The bits of a value above the pattern are [acc]; those within it
    follow the literal symbols. *)
Lemma values_shiftr (p : str) :
  forall acc v, In v (values acc p) ->
    Z.shiftr v (Z.of_nat (length p)) = acc /\ consistent p v.
Proof.
  induction p as [|c r IH]; intros acc v Hin.
  - destruct Hin as [<- | []]. split; [apply Z.shiftr_0_r|].
    intros [|i] c Hc; discriminate.
  - simpl in Hin.
    assert (Hb : exists b, (b = 0 \/ b = 1)%Z
               /\ (c <> "x" -> (b =? 1)%Z = Ascii.eqb c "1")
               /\ In v (values (2 * acc + b) r)).
    { destruct (Ascii.eqb_spec c "x") as [-> | Hc].
      - apply in_app_or in Hin. destruct Hin as [Hin | Hin].
        + exists 0%Z. rewrite Z.add_0_r. repeat split; auto; congruence.
        + exists 1%Z. repeat split; auto; congruence.
      - exists (Py.bit_value c). destruct (bit_value_cases c) as [H1 H2].
        repeat split; auto. }
    destruct Hb as (b & Hb & Hc & Hv).
    destruct (IH _ _ Hv) as [Hs Hcons].
    destruct (shiftr_step v acc b (length r) Hb Hs) as [Hs' Ht].
    split; [exact Hs'|].
    intros [|i] c' Hnth Hx; simpl in Hnth.
    + injection Hnth as <-.
      replace (length (c :: r) - 1 - 0) with (length r) by (simpl; lia).
      rewrite Ht. apply Hc, Hx.
    + specialize (Hcons i c' Hnth Hx).
      assert (Hi : i < length r) by (apply nth_error_Some; congruence).
      replace (length (c :: r) - 1 - S i) with (length r - 1 - i)
        by (simpl; lia).
      exact Hcons.
Qed.

Lemma values_NoDup (p : str) : forall acc, NoDup (values acc p).
Proof.
  induction p as [|c r IH]; intros acc; simpl.
  - constructor; [intros [] | constructor].
  - destruct (Ascii.eqb c "x"); [|apply IH].
    apply NoDup_app; [apply IH | apply IH |].
    intros v H0 H1.
    apply values_shiftr in H0. apply values_shiftr in H1.
    destruct H0 as [H0 _]. destruct H1 as [H1 _]. lia.
Qed.

Lemma values_range (p : str) (v : Z) :
  In v (values 0 p) -> (0 <= v < 2 ^ Z.of_nat (length p))%Z.
Proof.
  intros Hin. apply values_shiftr in Hin. destruct Hin as [Hs _].
  rewrite Z.shiftr_div_pow2 in Hs by lia.
  assert (Hpos : (0 < 2 ^ Z.of_nat (length p))%Z)
    by (apply Z.pow_pos_nonneg; lia).
  apply Z.div_small_iff in Hs; lia.
Qed.

(** C2. A pattern over the alphabet [0], [1], [x] of length [inputCount]
    (at least one symbol, as every [inputCount] the compiler derives is)
    with [k] wildcards expands without error into exactly [2^k] pairwise
    distinct integers, each in the range from [0] up to but excluding
    [2^inputCount], each agreeing with the literal bits of the pattern,
    listed in the order of the assignments to the wildcards in which the
    first wildcard varies slowest and [0] comes before [1]. *)
Theorem fromRowToNumbers_expansion (n : nat) (p : str) :
  length p = n -> n <> 0 -> Forall symbol p ->
  exists l,
    fromRowToNumbers p = Ok l
    /\ l = expansion p
    /\ length l = 2 ^ count_x p
    /\ NoDup l
    /\ Forall (fun v => (0 <= v < 2 ^ Z.of_nat n)%Z) l
    /\ Forall (consistent p) l.
Proof.
  intros Hn Hpos Hp.
  assert (Hne : p <> []) by (intros ->; simpl in Hn; congruence).
  exists (values 0 p). split; [apply fromRowToNumbers_values; assumption|].
  split; [apply values_expansion|].
  split; [apply values_length|].
  split; [apply values_NoDup|].
  split; apply Forall_forall; intros v Hv.
  - subst n. apply values_range. exact Hv.
  - apply (values_shiftr p 0 v Hv).
Qed.

Lemma fromRowToNumbers_expansion_witness :
  exists l,
    fromRowToNumbers (lit "1x0x") = Ok l
    /\ l = expansion (lit "1x0x")
    /\ length l = 2 ^ count_x (lit "1x0x")
    /\ NoDup l
    /\ Forall (fun v => (0 <= v < 2 ^ Z.of_nat 4)%Z) l
    /\ Forall (consistent (lit "1x0x")) l.
Proof.
  apply (fromRowToNumbers_expansion 4 (lit "1x0x")).
  - reflexivity.
  - discriminate.
  - unfold lit. simpl.
    repeat (apply Forall_cons; [unfold symbol; auto|]). apply Forall_nil.
Defined.

(** ** Classification of a row *)

Lemma str_eqb_eq (a b : str) : str_eqb a b = true <-> a = b.
Proof.
  unfold str_eqb. destruct (list_eq_dec ascii_dec a b); split;
    intros; congruence.
Qed.

Lemma str_eqb_neq (a b : str) : str_eqb a b = false <-> a <> b.
Proof.
  unfold str_eqb. destruct (list_eq_dec ascii_dec a b); split;
    intros; congruence.
Qed.

Lemma extend_at_app (pre : list (list Z)) (col : list Z)
  (rest : list (list Z)) (inputs : list Z) :
  extend_at (pre ++ col :: rest) (length pre) inputs
  = Ok (pre ++ (col ++ inputs) :: rest).
Proof.
  induction pre as [|c pre IH]; simpl; [reflexivity|].
  rewrite IH. reflexivity.
Qed.

Lemma extend_at_beyond (cols : list (list Z)) (inputs : list Z) :
  forall index, length cols <= index ->
    extend_at cols index inputs = Raise IndexError.
Proof.
  induction cols as [|c cols IH]; intros index Hle; simpl; [reflexivity|].
  destruct index as [|index]; simpl in Hle; [lia|].
  rewrite IH by lia. reflexivity.
Qed.

Lemma is_mark_cases (out : str) :
  (out = lit "1" /\ is_mark out = true)
  \/ (out = lit "x" /\ is_mark out = true)
  \/ (out <> lit "1" /\ out <> lit "x" /\ is_mark out = false
      /\ str_eqb out (lit "1") = false /\ str_eqb out (lit "x") = false).
Proof.
  unfold is_mark.
  destruct (str_eqb out (lit "1")) eqn:H1.
  - left. apply str_eqb_eq in H1. auto.
  - destruct (str_eqb out (lit "x")) eqn:Hx.
    + right; left. apply str_eqb_eq in Hx. auto.
    + right; right. apply str_eqb_neq in H1. apply str_eqb_neq in Hx. auto.
Qed.

(** Past the last column only a selecting token raises. *)
Lemma classify_beyond (inputs : list Z) (outputs : list str) :
  forall index s,
    length (minterms s) <= index -> length (dnc s) <= index ->
    classify inputs index outputs s
    = if existsb is_mark outputs then Raise IndexError else Ok s.
Proof.
  induction outputs as [|out outs IH]; intros index s Hm Hd; simpl;
    [reflexivity|].
  unfold classify_one.
  destruct (is_mark_cases out) as [[-> E] | [[-> E] | (_ & _ & E & E1 & Ex)]].
  - simpl. rewrite extend_at_beyond by exact Hm. reflexivity.
  - simpl. rewrite extend_at_beyond by exact Hd. reflexivity.
  - rewrite E, E1, Ex. simpl. apply IH; lia.
Qed.

(** The loop over the tokens of a row, from any column on. *)
Lemma classify_from (inputs : list Z) (outputs : list str) :
  forall index s pm cm pd cd,
    minterms s = pm ++ cm -> dnc s = pd ++ cd ->
    length pm = index -> length pd = index -> length cm = length cd ->
    classify inputs index outputs s
    = if existsb is_mark (skipn (length cm) outputs)
      then Raise IndexError
      else Ok {| minterms := pm ++ extend_cols (lit "1") inputs outputs cm;
                 dnc := pd ++ extend_cols (lit "x") inputs outputs cd;
                 inputCount := inputCount s;
                 outFuncCount := outFuncCount s |}.
Proof.
  induction outputs as [|out outs IH];
    intros index s pm cm pd cd Hm Hd Lm Ld Lc.
  - rewrite skipn_nil. destruct s; simpl in *; subst. reflexivity.
  - destruct cm as [|c cm]; destruct cd as [|d cd]; try discriminate.
    + rewrite classify_beyond
        by (rewrite ?Hm, ?Hd, length_app; simpl; lia).
      simpl. destruct (is_mark out || existsb is_mark outs);
        [reflexivity|].
      destruct s; simpl in *; subst. reflexivity.
    + simpl in Lc. injection Lc as Lc. subst index.
      cbn [classify length skipn]. unfold classify_one.
      assert (Lm' : forall x : list Z, length (pm ++ [x]) = S (length pm))
        by (intros x; rewrite length_app; simpl; lia).
      assert (Ld' : forall x : list Z, length (pd ++ [x]) = S (length pm))
        by (intros x; rewrite length_app; simpl; lia).
      destruct (is_mark_cases out)
        as [[-> E] | [[-> E] | (_ & _ & E & E1 & Ex)]].
      * rewrite Hm, extend_at_app. simpl.
        rewrite (IH (S (length pm)) _ (pm ++ [c ++ inputs]) cm
                   (pd ++ [d]) cd);
          simpl; rewrite <- ?app_assoc, ?Hd; auto.
      * simpl. rewrite Hd, <- Ld, extend_at_app. simpl.
        rewrite (IH (S (length pd)) _ (pm ++ [c]) cm
                   (pd ++ [d ++ inputs]) cd);
          simpl; rewrite <- ?app_assoc, ?Ld, ?Hm; auto.
      * rewrite E1, Ex. simpl.
        rewrite (IH (S (length pm)) _ (pm ++ [c]) cm (pd ++ [d]) cd);
          simpl; rewrite <- ?app_assoc, ?Hm, ?Hd; auto.
        unfold lit in E1, Ex. simpl in E1, Ex. rewrite E1, Ex. reflexivity.
Qed.

Lemma classify_columns (inputs : list Z) (outputs : list str) (s : locals) :
  length (minterms s) = length (dnc s) ->
  classify inputs 0 outputs s
  = if existsb is_mark (skipn (length (minterms s)) outputs)
    then Raise IndexError
    else Ok (classified inputs outputs s).
Proof.
  intros L.
  apply (classify_from inputs outputs 0 s [] (minterms s) [] (dnc s));
    auto.
Qed.

Lemma nth_error_extend_cols (mark : str) (inputs : list Z) :
  forall outputs cols j,
    nth_error (extend_cols mark inputs outputs cols) j
    = match nth_error cols j, nth_error outputs j with
      | Some col, Some out =>
          Some (if str_eqb out mark then col ++ inputs else col)
      | Some col, None => Some col
      | None, _ => None
      end.
Proof.
  induction outputs as [|out outs IH]; intros cols j.
  - destruct cols; simpl; destruct (nth_error _ j) eqn:E;
      try reflexivity; destruct j; reflexivity.
  - destruct cols as [|col cols]; simpl.
    + destruct j; reflexivity.
    + destruct j as [|j]; simpl; [reflexivity | apply IH].
Qed.

Lemma length_extend_cols (mark : str) (inputs : list Z) :
  forall outputs cols,
    length (extend_cols mark inputs outputs cols) = length cols.
Proof.
  induction outputs as [|out outs IH]; intros [|col cols]; simpl;
    try reflexivity.
  rewrite IH. reflexivity.
Qed.

(** ** Blanks inside a pattern *)

Lemma contains_replace_blank (p : str) :
  Py.contains "x" (Py.replace " " [] p) = Py.contains "x" p.
Proof.
  unfold Py.contains. induction p as [|c r IH]; simpl; [reflexivity|].
  destruct (Ascii.eqb_spec c " ") as [-> | Hc]; simpl;
    rewrite IH; reflexivity.
Qed.

Lemma replace_blank_idem (p : str) :
  Py.replace " " [] (Py.replace " " [] p) = Py.replace " " [] p.
Proof.
  induction p as [|c r IH]; simpl; [reflexivity|].
  destruct (Ascii.eqb c " ") eqn:Hc; simpl; [exact IH|].
  rewrite Hc, IH. reflexivity.
Qed.

Lemma replace_first_blank_comm (new : ascii) (p : str) :
  Ascii.eqb new " " = false ->
  Py.replace " " [] (Py.replace_count "x" [new] 1 p)
  = Py.replace_count "x" [new] 1 (Py.replace " " [] p).
Proof.
  intros Hnew. induction p as [|c r IH]; simpl; [reflexivity|].
  destruct (Ascii.eqb_spec c "x") as [-> | Hx]; simpl.
  - rewrite !replace_count_0, Hnew. reflexivity.
  - destruct (Ascii.eqb c " ") eqn:Hc; simpl.
    + rewrite ?Hc. exact IH.
    + rewrite ?Hc. apply Ascii.eqb_neq in Hx. rewrite ?Hx, IH. reflexivity.
Qed.

Lemma fromRowToNumbers_blanks (p : str) :
  fromRowToNumbers p = fromRowToNumbers (Py.replace " " [] p).
Proof.
  pattern p. apply wildcard_ind; clear p.
  - intros p Hx.
    rewrite (fromRowToNumbers_leaf p Hx).
    rewrite fromRowToNumbers_leaf by (rewrite contains_replace_blank; exact Hx).
    rewrite replace_blank_idem. reflexivity.
  - intros p Hx IH0 IH1.
    rewrite (fromRowToNumbers_wild p Hx).
    rewrite (fromRowToNumbers_wild (Py.replace " " [] p))
      by (rewrite contains_replace_blank; exact Hx).
    rewrite IH0, IH1.
    unfold lit; simpl list_ascii_of_string.
    rewrite !replace_first_blank_comm by reflexivity. reflexivity.
Qed.

Lemma fromRowToNumbers_pattern (p : str) :
  Forall symbol (Py.replace " " [] p) -> Py.replace " " [] p <> [] ->
  fromRowToNumbers p = Ok (expansion (Py.replace " " [] p)).
Proof.
  intros Hp Hne.
  rewrite fromRowToNumbers_blanks, fromRowToNumbers_values by assumption.
  rewrite values_expansion. reflexivity.
Qed.

Lemma row_segments (line seg0 seg1 : str) (rest : list str) (s : locals) :
  Py.split "|" line = seg0 :: seg1 :: rest ->
  row line s =
    (inputs <- fromRowToNumbers (Py.strip seg0) ;;
     classify inputs 0 (Py.split " " (Py.strip seg1)) s).
Proof.
  intros H. unfold row. rewrite H. reflexivity.
Qed.

(** C3. For a well-formed data row (an input pattern over [0], [1],
    [x] of [inputCount] symbols once its blanks are removed, and
    [outFuncCount] output tokens, each [0], [1] or [x]) the row compiles,
    and for every column [j]: when token [j] is [1] the whole expansion of
    the row is appended to [minterms[j]] and [dnc[j]] is left alone; when
    it is [x] the expansion is appended to [dnc[j]] and [minterms[j]] is
    left alone; when it is [0] neither set of column [j] changes. *)
Theorem row_classification (line seg0 seg1 : str) (rest : list str)
  (s : locals) :
  Py.split "|" line = seg0 :: seg1 :: rest ->
  Forall symbol (Py.replace " " [] (Py.strip seg0)) ->
  length (Py.replace " " [] (Py.strip seg0)) = inputCount s ->
  inputCount s <> 0 ->
  Forall out_symbol (Py.split " " (Py.strip seg1)) ->
  length (Py.split " " (Py.strip seg1)) = outFuncCount s ->
  length (minterms s) = outFuncCount s ->
  length (dnc s) = outFuncCount s ->
  exists inputs s',
    fromRowToNumbers (Py.strip seg0) = Ok inputs
    /\ inputs = expansion (Py.replace " " [] (Py.strip seg0))
    /\ row line s = Ok s'
    /\ forall j out,
         nth_error (Py.split " " (Py.strip seg1)) j = Some out ->
         (out = lit "1" ->
            nth_error (minterms s') j = Some (nth j (minterms s) [] ++ inputs)
            /\ nth_error (dnc s') j = nth_error (dnc s) j)
         /\ (out = lit "x" ->
               nth_error (dnc s') j = Some (nth j (dnc s) [] ++ inputs)
               /\ nth_error (minterms s') j = nth_error (minterms s) j)
         /\ (out = lit "0" ->
               nth_error (minterms s') j = nth_error (minterms s) j
               /\ nth_error (dnc s') j = nth_error (dnc s) j).
Proof.
  intros Hsplit Hp Hlen Hpos Hout Hn Lm Ld.
  set (outputs := Py.split " " (Py.strip seg1)) in *.
  set (p := Py.replace " " [] (Py.strip seg0)) in *.
  assert (Hne : p <> []) by (intros E; rewrite E in Hlen; simpl in Hlen; lia).
  exists (expansion p), (classified (expansion p) outputs s).
  assert (Hexp : fromRowToNumbers (Py.strip seg0) = Ok (expansion p))
    by (apply fromRowToNumbers_pattern; assumption).
  split; [exact Hexp|]. split; [reflexivity|]. split.
  - rewrite (row_segments _ _ _ _ _ Hsplit), Hexp. cbn [bind].
    fold outputs. rewrite classify_columns by congruence.
    rewrite Lm, <- Hn, skipn_all. reflexivity.
  - intros j out Hj.
    assert (Hjlt : j < outFuncCount s)
      by (rewrite <- Hn; apply nth_error_Some; congruence).
    assert (Hm : nth_error (minterms s) j = Some (nth j (minterms s) []))
      by (apply nth_error_nth'; lia).
    assert (Hd : nth_error (dnc s) j = Some (nth j (dnc s) []))
      by (apply nth_error_nth'; lia).
    unfold classified; cbn [minterms dnc].
    rewrite !nth_error_extend_cols, Hj, Hm, Hd.
    split; [|split]; intros ->; split; reflexivity.
Qed.

Lemma row_classification_witness :
  exists inputs s',
    fromRowToNumbers (Py.strip (lit "1 x 0 ")) = Ok inputs
    /\ inputs = expansion (Py.replace " " [] (Py.strip (lit "1 x 0 ")))
    /\ row (line_of "1 x 0 | 1 0") (fresh 3 2) = Ok s'
    /\ forall j out,
         nth_error (Py.split " " (Py.strip (lit " 1 0" ++ [newline]))) j
           = Some out ->
         (out = lit "1" ->
            nth_error (minterms s') j
              = Some (nth j (minterms (fresh 3 2)) [] ++ inputs)
            /\ nth_error (dnc s') j = nth_error (dnc (fresh 3 2)) j)
         /\ (out = lit "x" ->
               nth_error (dnc s') j
                 = Some (nth j (dnc (fresh 3 2)) [] ++ inputs)
               /\ nth_error (minterms s') j
                  = nth_error (minterms (fresh 3 2)) j)
         /\ (out = lit "0" ->
               nth_error (minterms s') j = nth_error (minterms (fresh 3 2)) j
               /\ nth_error (dnc s') j = nth_error (dnc (fresh 3 2)) j).
Proof.
  apply (row_classification (line_of "1 x 0 | 1 0") (lit "1 x 0 ")
           (lit " 1 0" ++ [newline]) [] (fresh 3 2)).
  - reflexivity.
  - vm_compute. repeat (apply Forall_cons; [unfold symbol; auto|]).
    apply Forall_nil.
  - reflexivity.
  - simpl. discriminate.
  - vm_compute. repeat (apply Forall_cons; [unfold out_symbol; auto|]).
    apply Forall_nil.
  - reflexivity.
  - reflexivity.
  - reflexivity.
Defined.

(** ** Rows whose token count differs from the column count *)

(** C5, as the code has it. A data row whose number of output tokens
    differs from [outFuncCount] is not rejected for it. The row raises
    [IndexError] exactly when a token beyond the last column is [1] or
    [x]; otherwise it compiles, and in particular a row with fewer tokens
    always does: the columns it has tokens for are classified, the others
    are left as they were. When the compilation raises, the run ends
    there: nothing is printed and the reducer is not invoked. *)
Theorem row_token_count (line seg0 seg1 : str) (rest : list str)
  (s : locals) (inputs : list Z) :
  Py.split "|" line = seg0 :: seg1 :: rest ->
  fromRowToNumbers (Py.strip seg0) = Ok inputs ->
  length (minterms s) = outFuncCount s ->
  length (dnc s) = outFuncCount s ->
  let outputs := Py.split " " (Py.strip seg1) in
  row line s
    = (if existsb is_mark (skipn (outFuncCount s) outputs)
       then Raise IndexError
       else Ok (classified inputs outputs s))
  /\ (length outputs <= outFuncCount s ->
        row line s = Ok (classified inputs outputs s))
  /\ (forall j, length outputs <= j ->
        nth_error (minterms (classified inputs outputs s)) j
          = nth_error (minterms s) j
        /\ nth_error (dnc (classified inputs outputs s)) j
           = nth_error (dnc s) j)
  /\ (forall verbose colored nt petrick lines e,
        compile lines unbound = Raise e ->
        main verbose colored nt petrick lines = ([], Raise e)).
Proof.
  intros Hsplit Hexp Lm Ld outputs.
  assert (Hrow : row line s
                 = if existsb is_mark (skipn (outFuncCount s) outputs)
                   then Raise IndexError
                   else Ok (classified inputs outputs s)).
  { rewrite (row_segments _ _ _ _ _ Hsplit), Hexp. cbn [bind].
    fold outputs. rewrite classify_columns by congruence.
    rewrite Lm. reflexivity. }
  split; [exact Hrow|]. split; [|split].
  - intros Hle. rewrite Hrow, skipn_all2 by exact Hle. reflexivity.
  - intros j Hj. unfold classified; cbn [minterms dnc].
    rewrite !nth_error_extend_cols.
    assert (Hnone : nth_error outputs j = None)
      by (apply nth_error_None; exact Hj).
    rewrite Hnone.
    destruct (nth_error (minterms s) j), (nth_error (dnc s) j); auto.
  - intros verbose colored nt petrick lines e He. unfold main.
    rewrite He. reflexivity.
Qed.

Lemma row_token_count_witness :
  row (line_of "0 1 | 1") (fresh 2 2)
  = Ok (classified [1%Z] [lit "1"] (fresh 2 2)).
Proof.
  apply (row_token_count (line_of "0 1 | 1") (lit "0 1 ")
           (lit " 1" ++ [newline]) [] (fresh 2 2) [1%Z]);
    try reflexivity.
  simpl. lia.
Defined.

(** A table with a short row compiles. *)
Lemma short_row_compiles :
  compile [line_of "0 0 | 1 0"; line_of "0 1 | 1"] unbound
  = Ok {| minterms := [[0%Z; 1%Z]; []]; dnc := [[]; []];
          inputCount := 2; outFuncCount := 2 |}.
Proof. reflexivity. Qed.

(** ** Tokens other than [1] and [x] *)

Lemma classify_one_other (inputs : list Z) (index : nat) (out : str)
  (s : locals) :
  out <> lit "1" -> out <> lit "x" -> classify_one inputs index out s = Ok s.
Proof.
  intros H1 Hx. unfold classify_one.
  apply str_eqb_neq in H1. apply str_eqb_neq in Hx.
  rewrite H1, Hx. reflexivity.
Qed.

(** C10. An output token that is neither [1] nor [x] (an invalid symbol
    such as [2], a token of several characters, an empty token) is
    handled exactly like the deny marker [0]: whatever the column, the
    step raises nothing and leaves both sets untouched, and a row
    compiles to the same result as the row with every such token
    replaced by [0]. *)
Theorem other_tokens_denied (inputs : list Z) (index : nat) (s : locals) :
  (forall out, out <> lit "1" -> out <> lit "x" ->
     classify_one inputs index out s = Ok s
     /\ classify_one inputs index out s
        = classify_one inputs index (lit "0") s)
  /\ (forall outputs,
        classify inputs index outputs s
        = classify inputs index (map as_deny outputs) s).
Proof.
  split.
  - intros out H1 Hx. rewrite (classify_one_other _ _ _ _ H1 Hx).
    split; reflexivity.
  - intros outputs. revert index s.
    induction outputs as [|out outs IH]; intros index s; [reflexivity|].
    cbn [map classify]. unfold as_deny at 1.
    destruct (is_mark_cases out) as [[-> E] | [[-> E] | (H1 & Hx & E & _)]];
      rewrite E.
    + destruct (classify_one inputs index (lit "1") s); [apply IH|reflexivity].
    + destruct (classify_one inputs index (lit "x") s); [apply IH|reflexivity].
    + rewrite (classify_one_other _ _ _ _ H1 Hx). cbn [bind].
      rewrite IH. reflexivity.
Qed.

Lemma other_tokens_denied_witness :
  classify_one [4%Z; 6%Z] 0 (lit "2") (fresh 3 1) = Ok (fresh 3 1)
  /\ classify_one [4%Z; 6%Z] 5 (lit "10") (fresh 3 1)
     = classify_one [4%Z; 6%Z] 5 (lit "0") (fresh 3 1).
Proof.
  split.
  - apply (other_tokens_denied [4%Z; 6%Z] 0 (fresh 3 1)); discriminate.
  - apply (other_tokens_denied [4%Z; 6%Z] 5 (fresh 3 1)); discriminate.
Defined.

(** ** Characters [int(s, 2)] rejects *)

Lemma tolerated_false (c : ascii) :
  tolerated c = false ->
  Py.is_bit c = false /\ Ascii.eqb c "x" = false
  /\ Py.int_isspace c = false /\ Ascii.eqb c "+" = false
  /\ Ascii.eqb c "-" = false /\ Ascii.eqb c "_" = false
  /\ Ascii.eqb c "b" = false /\ Ascii.eqb c "B" = false.
Proof.
  unfold tolerated. intros H.
  do 7 (apply orb_false_iff in H; destruct H as [H ?]).
  repeat split; assumption.
Qed.

Lemma in_int_lstrip (c : ascii) (s : str) :
  Py.int_isspace c = false -> In c s -> In c (Py.int_lstrip s).
Proof.
  intros Hc. induction s as [|d r IH]; simpl; [auto|].
  intros [-> | Hin].
  - rewrite Hc. left. reflexivity.
  - destruct (Py.int_isspace d); [apply IH; exact Hin | right; exact Hin].
Qed.

Lemma in_strip_sign (c : ascii) (s : str) :
  Ascii.eqb c "+" = false -> Ascii.eqb c "-" = false ->
  In c s -> In c (snd (Py.strip_sign s)).
Proof.
  intros Hp Hm. destruct s as [|d r]; simpl; [auto|].
  intros Hin.
  destruct (Ascii.eqb_spec d "+") as [-> | _];
    [|destruct (Ascii.eqb_spec d "-") as [-> | _]]; simpl; auto;
    destruct Hin as [<- | Hin]; auto; discriminate.
Qed.

Lemma in_strip_prefix (c : ascii) (s : str) :
  Py.is_bit c = false -> Ascii.eqb c "_" = false ->
  Ascii.eqb c "b" = false -> Ascii.eqb c "B" = false ->
  In c s -> In c (Py.strip_prefix s).
Proof.
  intros Hbit Hu Hb HB Hin. unfold Py.strip_prefix.
  destruct s as [|c0 [|c1 r]]; auto.
  destruct (Ascii.eqb c0 "0" && (Ascii.eqb c1 "b" || Ascii.eqb c1 "B"))
    eqn:E; auto.
  apply andb_true_iff in E. destruct E as [E0 E1].
  apply Ascii.eqb_eq in E0. subst c0.
  assert (Hr : In c r).
  { destruct Hin as [<- | [<- | Hin]]; auto.
    - discriminate.
    - rewrite Hb, HB in E1. discriminate. }
  destruct r as [|c2 r']; auto.
  destruct (Ascii.eqb_spec c2 "_") as [-> | _]; auto.
  destruct Hr as [<- | Hr]; auto. discriminate.
Qed.

Lemma scan_digits_stops (c : ascii) (s : str) :
  Py.is_bit c = false -> Ascii.eqb c "_" = false -> In c s ->
  forall prev acc,
    match Py.scan_digits prev acc s with
    | Some (_, rest) => In c rest
    | None => True
    end.
Proof.
  intros Hbit Hu. induction s as [|d r IH]; intros Hin prev acc;
    [destruct Hin|].
  cbn [Py.scan_digits].
  destruct (Py.is_bit d) eqn:Hd.
  - apply IH. destruct Hin as [<- | Hin]; [congruence | exact Hin].
  - destruct (Ascii.eqb d "_") eqn:Hdu.
    + destruct prev as [q|]; [|exact I].
      destruct (Ascii.eqb q "_"); [exact I|].
      apply IH. destruct Hin as [<- | Hin]; [congruence | exact Hin].
    + destruct prev as [q|]; [|exact I].
      destruct (Ascii.eqb q "_"); [exact I | exact Hin].
Qed.

Lemma int2_rejects (c : ascii) (s : str) :
  tolerated c = false -> In c s -> Py.int2 s = None.
Proof.
  intros Hc Hin.
  destruct (tolerated_false c Hc) as (Hbit & _ & Hsp & Hp & Hm & Hu & Hb & HB).
  unfold Py.int2.
  pose proof (in_strip_sign c _ Hp Hm (in_int_lstrip c s Hsp Hin)) as H2.
  destruct (Py.strip_sign (Py.int_lstrip s)) as [neg s2]. simpl in H2.
  pose proof (scan_digits_stops c _ Hbit Hu
                (in_strip_prefix c s2 Hbit Hu Hb HB H2) None 0%Z) as H3.
  destruct (Py.scan_digits None 0 (Py.strip_prefix s2)) as [[v rest]|];
    [|reflexivity].
  pose proof (in_int_lstrip c rest Hsp H3) as H4.
  destruct (Py.int_lstrip rest); [destruct H4 | reflexivity].
Qed.

Lemma in_replace_blank (c : ascii) (s : str) :
  Ascii.eqb c " " = false -> In c s -> In c (Py.replace " " [] s).
Proof.
  intros Hc. induction s as [|d r IH]; simpl; [auto|].
  intros [-> | Hin].
  - rewrite Hc. left. reflexivity.
  - destruct (Ascii.eqb d " "); [apply IH; exact Hin|].
    right. apply IH. exact Hin.
Qed.

Lemma in_replace_first (c new : ascii) (s : str) :
  Ascii.eqb c "x" = false -> In c s ->
  In c (Py.replace_count "x" [new] 1 s).
Proof.
  intros Hc. induction s as [|d r IH]; simpl; [auto|].
  intros [-> | Hin].
  - rewrite Hc. left. reflexivity.
  - destruct (Ascii.eqb d "x"); simpl.
    + rewrite replace_count_0. right. exact Hin.
    + right. apply IH. exact Hin.
Qed.

Lemma replace_no_wildcard (new : str) (s : str) :
  Py.contains "x" s = false -> Py.replace "x" new s = s.
Proof.
  unfold Py.contains. induction s as [|d r IH]; simpl; [reflexivity|].
  intros H. apply orb_false_iff in H. destruct H as [Hd Hr].
  rewrite Ascii.eqb_sym in Hd. rewrite Hd, IH by exact Hr. reflexivity.
Qed.

Lemma replace_replace_first (new : ascii) (s : str) :
  Py.replace "x" [new] (Py.replace_count "x" [new] 1 s)
  = Py.replace "x" [new] s.
Proof.
  destruct (Ascii.eqb new "x") eqn:Hnew.
  - apply Ascii.eqb_eq in Hnew. subst new.
    induction s as [|d r IH]; simpl; [reflexivity|].
    destruct (Ascii.eqb_spec d "x") as [-> | Hd]; simpl.
    + rewrite replace_count_0. reflexivity.
    + apply Ascii.eqb_neq in Hd. rewrite Hd, IH. reflexivity.
  - induction s as [|d r IH]; simpl; [reflexivity|].
    destruct (Ascii.eqb_spec d "x") as [-> | Hd]; simpl.
    + rewrite replace_count_0, Hnew. reflexivity.
    + apply Ascii.eqb_neq in Hd. rewrite Hd, IH. reflexivity.
Qed.

(** A pattern holding a character that is not tolerated raises at its
    first leaf. *)
Lemma fromRowToNumbers_rejects (c : ascii) (p : str) :
  tolerated c = false -> In c p ->
  fromRowToNumbers p
  = Raise (ValueError (Py.replace " " [] (Py.replace "x" (lit "0") p))).
Proof.
  intros Hc.
  destruct (tolerated_false c Hc) as (_ & Hx & Hsp & _).
  assert (Hblank : Ascii.eqb c " " = false).
  { destruct (Ascii.eqb_spec c " ") as [-> | _]; [discriminate|reflexivity]. }
  pattern p. apply wildcard_ind; clear p.
  - intros p Hleaf Hin.
    rewrite (fromRowToNumbers_leaf p Hleaf).
    rewrite (int2_rejects c _ Hc (in_replace_blank c p Hblank Hin)).
    rewrite (replace_no_wildcard _ p Hleaf). reflexivity.
  - intros p Hwild IH0 _ Hin.
    rewrite (fromRowToNumbers_wild p Hwild).
    rewrite (IH0 (in_replace_first c "0" p Hx Hin)). cbn [bind].
    unfold lit; simpl list_ascii_of_string.
    rewrite replace_replace_first. reflexivity.
Qed.

(** ** Rows that raise *)

Lemma rows_raise (line : str) (lines : list str) :
  In line lines -> (forall s, exists e, row line s = Raise e) ->
  forall s, exists e, rows lines s = Raise e.
Proof.
  intros Hin Hrow. induction lines as [|l ls IH]; [destruct Hin|].
  intros s. cbn [rows].
  destruct Hin as [-> | Hin].
  - destruct (Hrow s) as [e He]. rewrite He. exists e. reflexivity.
  - destruct (row l s) as [s'|e]; cbn [bind].
    + apply IH. exact Hin.
    + exists e. reflexivity.
Qed.

Lemma compile_raise (line : str) (lines : list str) :
  In line lines -> (forall s, exists e, row line s = Raise e) ->
  forall s, exists e, compile lines s = Raise e.
Proof.
  intros Hin Hrow s. unfold compile.
  destruct (item lines 0) as [l0|e]; cbn [bind]; [|eauto].
  destruct (item (Py.split "|" l0) 0) as [a|e]; cbn [bind]; [|eauto].
  destruct (item (Py.split "|" l0) 1) as [b|e]; cbn [bind]; [|eauto].
  apply (rows_raise line lines Hin Hrow).
Qed.

(** A table in which the character [2] is an output token compiles. *)
Lemma invalid_output_symbol_accepted :
  compile [line_of "0 0 | 2"] unbound = Ok (fresh 2 1).
Proof. reflexivity. Qed.

(** C4, as the code has it. When the input pattern of some row holds a
    character that is neither [0], [1] nor [x] and that Python's
    [int(s, 2)] does not admit in a literal either (it admits blanks, a
    sign, underscores and the [b] of a [0b] prefix), such as [2], the row
    raises [ValueError] and the compilation of the table fails; the
    exception carries the rejected literal, which is the pattern without
    its blanks and with its wildcards set to [0], and no row number. An
    output token outside [0], [1], [x] raises nothing. *)
Theorem invalid_input_symbol (lines : list str) (line seg0 : str)
  (rest : list str) (c : ascii) :
  In line lines ->
  Py.split "|" line = seg0 :: rest ->
  In c (Py.strip seg0) ->
  tolerated c = false ->
  (forall s,
     row line s
     = Raise (ValueError
                (Py.replace " " [] (Py.replace "x" (lit "0") (Py.strip seg0)))))
  /\ (forall s, exists e, compile lines s = Raise e)
  /\ (forall inputs index out s,
        out <> lit "1" -> out <> lit "x" ->
        classify_one inputs index out s = Ok s).
Proof.
  intros Hin Hsplit Hc Htol.
  assert (Hrow : forall s,
             row line s
             = Raise (ValueError
                        (Py.replace " " []
                           (Py.replace "x" (lit "0") (Py.strip seg0))))).
  { intros s. unfold row. rewrite Hsplit. cbn [item nth_error bind].
    rewrite (fromRowToNumbers_rejects c _ Htol Hc). reflexivity. }
  split; [exact Hrow|]. split.
  - apply (compile_raise line lines Hin). intros s. eexists. apply Hrow.
  - intros inputs index out s. apply classify_one_other.
Qed.

Lemma invalid_input_symbol_witness :
  row (line_of "0 2 | 1") unbound = Raise (ValueError (lit "02"))
  /\ exists e, compile [line_of "0 0 | 1"; line_of "0 2 | 1"] unbound
               = Raise e.
Proof.
  destruct (invalid_input_symbol
              [line_of "0 0 | 1"; line_of "0 2 | 1"] (line_of "0 2 | 1")
              (lit "0 2 ") [lit " 1" ++ [newline]] "2")
    as (Hrow & Hcompile & _).
  - right. left. reflexivity.
  - reflexivity.
  - vm_compute. auto.
  - reflexivity.
  - split; [apply Hrow | apply Hcompile].
Defined.

(** ** Blank lines and line terminators *)

Lemma lstrip_head (s : str) :
  match Py.lstrip s with
  | [] => True
  | c :: _ => Py.isspace c = false
  end.
Proof.
  induction s as [|c r IH]; simpl; [exact I|].
  destruct (Py.isspace c) eqn:Hc; [exact IH | exact Hc].
Qed.

Lemma lstrip_nil (s : str) :
  Py.lstrip s = [] -> Forall (fun c => Py.isspace c = true) s.
Proof.
  induction s as [|c r IH]; simpl; intros H; [constructor|].
  destruct (Py.isspace c) eqn:Hc; [|discriminate].
  constructor; [exact Hc | apply IH; exact H].
Qed.

Lemma strip_nil (s : str) :
  Py.strip s = [] -> Forall (fun c => Py.isspace c = true) s.
Proof.
  unfold Py.strip, Py.rstrip. intros H.
  assert (H1 : Py.lstrip (rev (Py.lstrip s)) = []).
  { apply (f_equal (@rev ascii)) in H. rewrite rev_involutive in H.
    exact H. }
  apply lstrip_nil in H1. apply Forall_rev in H1.
  rewrite rev_involutive in H1.
  pose proof (lstrip_head s) as Hh.
  destruct (Py.lstrip s) as [|c r] eqn:E; [apply lstrip_nil; exact E|].
  inversion H1; congruence.
Qed.

Lemma split_no_sep (sep : ascii) (s : str) :
  Forall (fun c => Ascii.eqb c sep = false) s -> Py.split sep s = [s].
Proof.
  induction 1 as [|c r Hc _ IH]; simpl; [reflexivity|].
  rewrite Hc, IH. reflexivity.
Qed.

Lemma fromRowToNumbers_empty : fromRowToNumbers [] = Raise (ValueError []).
Proof. rewrite fromRowToNumbers_leaf; reflexivity. Qed.

Lemma blank_row_raises (line : str) (s : locals) :
  Py.strip line = [] -> row line s = Raise (ValueError []).
Proof.
  intros Hblank. unfold row.
  rewrite (split_no_sep "|" line).
  - cbn [item nth_error bind]. rewrite Hblank, fromRowToNumbers_empty.
    reflexivity.
  - apply strip_nil in Hblank.
    eapply Forall_impl; [|exact Hblank]. intros c Hc.
    destruct (Ascii.eqb_spec c "|") as [-> | _]; [discriminate|reflexivity].
Qed.

Lemma lstrip_app_newline (s : str) :
  Py.lstrip (s ++ [newline]) = Py.lstrip s ++ [newline]
  \/ (Py.lstrip (s ++ [newline]) = [] /\ Py.lstrip s = []).
Proof.
  induction s as [|c r IH]; simpl.
  - right. split; reflexivity.
  - destruct (Py.isspace c); [exact IH | left; reflexivity].
Qed.

Lemma strip_app_newline (s : str) :
  Py.strip (s ++ [newline]) = Py.strip s.
Proof.
  unfold Py.strip.
  destruct (lstrip_app_newline s) as [-> | [-> ->]]; [|reflexivity].
  unfold Py.rstrip. rewrite rev_app_distr. reflexivity.
Qed.

(** Splitting a line with its terminator: the terminator ends up at the
    end of the last piece. *)
Lemma split_app_newline (sep : ascii) (s : str) :
  Ascii.eqb newline sep = false ->
  exists init last,
    Py.split sep s = init ++ [last]
    /\ Py.split sep (s ++ [newline]) = init ++ [last ++ [newline]].
Proof.
  intros Hsep. induction s as [|c r IH]; simpl.
  - exists [], []. rewrite Hsep. split; reflexivity.
  - destruct IH as (init & last & H1 & H2). rewrite H1, H2.
    destruct (Ascii.eqb c sep).
    + exists ([] :: init), last. split; reflexivity.
    + destruct init as [|i init]; simpl.
      * exists [], (c :: last). split; reflexivity.
      * exists ((c :: i) :: init), last. split; reflexivity.
Qed.

Lemma row_app_newline (line : str) (s : locals) :
  row (line ++ [newline]) s = row line s.
Proof.
  unfold row.
  destruct (split_app_newline "|" line eq_refl) as (init & last & H1 & H2).
  rewrite H1, H2.
  destruct init as [|a [|b init]]; cbn [app item nth_error bind].
  - rewrite strip_app_newline. reflexivity.
  - rewrite strip_app_newline. reflexivity.
  - reflexivity.
Qed.

(** A table with an empty line after its row fails where the table
    without that line compiles. *)
Lemma empty_line_not_skipped :
  compile [line_of "0 0 | 1"; line_of ""] unbound = Raise (ValueError [])
  /\ compile [line_of "0 0 | 1"] unbound
     = Ok {| minterms := [[0%Z]]; dnc := [[]];
             inputCount := 2; outFuncCount := 1 |}.
Proof. split; reflexivity. Qed.

(** C6, as the code has it. Empty lines are not skipped: a line that is
    empty or blank is processed like every other line, its empty pattern
    is no base-2 literal, so the row raises [ValueError] and the
    compilation of a table holding such a line fails. The terminator of a
    line is not an empty line: a row compiles the same with and without
    its final newline. *)
Theorem blank_line_fails (lines : list str) (line : str) :
  In line lines ->
  Py.strip line = [] ->
  (forall s, row line s = Raise (ValueError []))
  /\ (forall s, exists e, compile lines s = Raise e)
  /\ (forall l s, row (l ++ [newline]) s = row l s).
Proof.
  intros Hin Hblank.
  split; [intros s; apply blank_row_raises; exact Hblank|].
  split.
  - apply (compile_raise line lines Hin). intros s.
    exists (ValueError []). apply blank_row_raises. exact Hblank.
  - apply row_app_newline.
Qed.

Lemma blank_line_fails_witness :
  row (line_of "") unbound = Raise (ValueError [])
  /\ exists e, compile [line_of "0 0 | 1"; line_of ""] unbound = Raise e.
Proof.
  destruct (blank_line_fails [line_of "0 0 | 1"; line_of ""] (line_of ""))
    as (Hrow & Hcompile & _).
  - right. left. reflexivity.
  - reflexivity.
  - split; [apply Hrow | apply Hcompile].
Defined.

(** ** The first line *)

(** A table that opens with a line of column names fails on that
    line. *)
Lemma header_line_rejected :
  compile [line_of "a b | Q0"; line_of "0 0 | 1"] unbound
  = Raise (ValueError (lit "ab"))
  /\ ~ (exists s,
          compile [line_of "a b | Q0"; line_of "0 0 | 1"] unbound = Ok s
          /\ minterms s = [[0%Z]] /\ dnc s = [[]]).
Proof.
  assert (H : compile [line_of "a b | Q0"; line_of "0 0 | 1"] unbound
              = Raise (ValueError (lit "ab"))) by reflexivity.
  split; [exact H|]. intros (s & Hs & _). rewrite H in Hs. discriminate.
Qed.

(** C1, as the code has it. The first line is itself a data row: the
    column counts are read off it and it is then expanded and classified
    like the others. The table made of the single row [0 0 | 1] compiles
    to [minterms[0] = [0]] and [dnc[0] = []]; a table whose first line is
    the header [a b | Q0] fails whatever follows, with [ValueError] on
    the pattern [ab]. *)
Theorem first_line_is_a_row :
  compile [line_of "0 0 | 1"] unbound
  = Ok {| minterms := [[0%Z]]; dnc := [[]];
          inputCount := 2; outFuncCount := 1 |}
  /\ (forall rest s,
        compile (line_of "a b | Q0" :: rest) s
        = Raise (ValueError (lit "ab"))).
Proof.
  split; [reflexivity|].
  intros rest s. unfold compile. cbn [item nth_error bind rows].
  assert (H : forall s', row (line_of "a b | Q0") s'
                         = Raise (ValueError (lit "ab"))).
  { intros s'.
    rewrite (row_segments (line_of "a b | Q0") (lit "a b ")
               (lit " Q0" ++ [newline]) [] s' eq_refl).
    reflexivity. }
  change (Py.split "|" (line_of "a b | Q0"))
    with [lit "a b "; lit " Q0" ++ [newline]].
  cbn [item nth_error bind]. rewrite H. reflexivity.
Qed.

(** ** What compilation keeps invariant *)

Lemma compile_fresh (lines : list str) (s : locals) :
  compile lines s =
    (l0 <- item lines 0 ;;
     a <- item (Py.split "|" l0) 0 ;;
     l0' <- item lines 0 ;;
     b <- item (Py.split "|" l0') 1 ;;
     rows lines (fresh (length (Py.split " " (Py.strip a)))
                   (length (Py.split " " (Py.strip b))))).
Proof. reflexivity. Qed.

Lemma split_length (sep : ascii) (s : str) : length (Py.split sep s) <> 0.
Proof.
  destruct s as [|c r]; simpl; [discriminate|].
  destruct (Ascii.eqb c sep); [discriminate|].
  destruct (Py.split sep r); discriminate.
Qed.

Lemma row_preserves (line : str) (s s' : locals) :
  length (minterms s) = length (dnc s) ->
  row line s = Ok s' ->
  length (minterms s') = length (minterms s)
  /\ length (dnc s') = length (dnc s)
  /\ inputCount s' = inputCount s
  /\ outFuncCount s' = outFuncCount s.
Proof.
  intros L. unfold row.
  destruct (item (Py.split "|" line) 0) as [seg0|e]; cbn [bind];
    [|discriminate].
  destruct (fromRowToNumbers (Py.strip seg0)) as [inputs|e]; cbn [bind];
    [|discriminate].
  destruct (item (Py.split "|" line) 1) as [seg1|e]; cbn [bind];
    [|discriminate].
  rewrite classify_columns by exact L.
  destruct (existsb is_mark _); [discriminate|].
  intros [= <-]. unfold classified; cbn [minterms dnc inputCount outFuncCount].
  rewrite !length_extend_cols. auto.
Qed.

Lemma rows_preserve (lines : list str) :
  forall s s',
    length (minterms s) = length (dnc s) ->
    rows lines s = Ok s' ->
    length (minterms s') = length (minterms s)
    /\ length (dnc s') = length (dnc s)
    /\ inputCount s' = inputCount s
    /\ outFuncCount s' = outFuncCount s.
Proof.
  induction lines as [|line lines IH]; intros s s' L; cbn [rows].
  - intros [= <-]. auto.
  - destruct (row line s) as [s1|e] eqn:Hrow; cbn [bind]; [|discriminate].
    intros Hrows.
    destruct (row_preserves line s s1 L Hrow) as (A & B & C & D).
    destruct (IH s1 s') as (A' & B' & C' & D'); [congruence | exact Hrows |].
    repeat split; congruence.
Qed.

(** After a compilation both lists have one entry per output column, and
    neither count is zero. *)
Lemma compile_columns (lines : list str) (s0 s : locals) :
  compile lines s0 = Ok s ->
  length (minterms s) = outFuncCount s
  /\ length (dnc s) = outFuncCount s
  /\ inputCount s <> 0 /\ outFuncCount s <> 0.
Proof.
  rewrite compile_fresh.
  destruct (item lines 0) as [l0|e]; cbn [bind]; [|discriminate].
  destruct (item (Py.split "|" l0) 0) as [a|e]; cbn [bind]; [|discriminate].
  destruct (item (Py.split "|" l0) 1) as [b|e]; cbn [bind]; [|discriminate].
  intros Hrows. apply rows_preserve in Hrows.
  - cbn [fresh minterms dnc inputCount outFuncCount] in Hrows.
    rewrite !repeat_length in Hrows.
    destruct Hrows as (A & B & C & D). rewrite C, D.
    repeat split; try congruence; apply split_length.
  - cbn [fresh minterms dnc]. rewrite !repeat_length. reflexivity.
Qed.

(** ** The lists handed to the reducer *)

Lemma string_of_uint_no_blank (d : Decimal.uint) :
  no_blank (list_ascii_of_string (NilEmpty.string_of_uint d)).
Proof.
  unfold no_blank.
  induction d; simpl; constructor; try reflexivity; assumption.
Qed.

Lemma str_int_no_blank (n : Z) : no_blank (Py.str_int n).
Proof.
  unfold Py.str_int, NilEmpty.string_of_int.
  destruct (Z.to_int n); simpl.
  - apply string_of_uint_no_blank.
  - constructor; [reflexivity | apply string_of_uint_no_blank].
Qed.

Lemma replace_no_blank (s : str) : no_blank s -> Py.replace " " [] s = s.
Proof.
  induction 1 as [|c r Hc _ IH]; simpl; [reflexivity|].
  rewrite Hc, IH. reflexivity.
Qed.

Lemma replace_app (old : ascii) (new a b : str) :
  Py.replace old new (a ++ b) = Py.replace old new a ++ Py.replace old new b.
Proof.
  induction a as [|c r IH]; simpl; [reflexivity|].
  destruct (Ascii.eqb c old); rewrite IH; [apply app_assoc | reflexivity].
Qed.

Lemma replace_blank_free (s : str) : ~ In " " (Py.replace " " [] s).
Proof.
  induction s as [|c r IH]; simpl; [auto|].
  destruct (Ascii.eqb_spec c " ") as [-> | Hc]; [exact IH|].
  intros [E | Hin]; [congruence | exact (IH Hin)].
Qed.

Lemma replace_blank_join (parts : list str) :
  Forall no_blank parts ->
  Py.replace " " [] (Py.join (lit ", ") parts) = Py.join (lit ",") parts.
Proof.
  induction 1 as [|p ps Hp Hps IH]; [reflexivity|].
  destruct ps as [|q ps]; [apply replace_no_blank; exact Hp|].
  change (Py.join (lit ", ") (p :: q :: ps))
    with (p ++ lit ", " ++ Py.join (lit ", ") (q :: ps)).
  change (Py.join (lit ",") (p :: q :: ps))
    with (p ++ lit "," ++ Py.join (lit ",") (q :: ps)).
  rewrite !replace_app, IH, (replace_no_blank p Hp). reflexivity.
Qed.

Lemma mstr_format (m : list Z) :
  mstr m = "[" :: Py.join (lit ",") (map Py.str_int m) ++ ["]"].
Proof.
  unfold mstr, Py.str_list.
  change ("[" :: Py.join (lit ", ") (map Py.str_int m) ++ ["]"])
    with (["["] ++ Py.join (lit ", ") (map Py.str_int m) ++ ["]"]).
  rewrite !replace_app, replace_blank_join; [reflexivity|].
  apply Forall_forall. intros p Hp. apply in_map_iff in Hp.
  destruct Hp as (n & <- & _). apply str_int_no_blank.
Qed.

(** ** The invocations of the reducer *)

Section Invocations.

Variables (verbose colored nt : bool).
Variable petrick : str -> str * str.

Lemma executed_app (a b : list event) :
  executed (a ++ b) = executed a ++ executed b.
Proof. apply flat_map_app. Qed.

Lemma executeCommand_executed (cmd : str) :
  executed (fst (executeCommand petrick cmd)) = [cmd].
Proof.
  unfold executeCommand. destruct (petrick cmd) as [out [|c err]];
    reflexivity.
Qed.

Lemma report_prefix (n : nat) (cols : list (list Z * list Z)) :
  forall index,
  exists k,
    executed (fst (report verbose colored nt petrick n index cols))
    = firstn k (commands verbose colored nt n cols).
Proof.
  induction cols as [|[m d] cols IH]; intros index; cbn [report].
  - exists 0. reflexivity.
  - pose proof (executeCommand_executed (command verbose colored nt n m d))
      as Hx.
    destruct (executeCommand petrick (command verbose colored nt n m d))
      as [evs [u|e]]; cbn [fst] in Hx.
    + destruct (IH (S index)) as [k Hk].
      destruct (report verbose colored nt petrick n (S index) cols)
        as [evs' r]. cbn [fst] in *.
      exists (S k). rewrite !executed_app, Hx, Hk. reflexivity.
    + exists 1. cbn [fst]. rewrite executed_app, Hx. reflexivity.
Qed.

Lemma report_all (n : nat) (cols : list (list Z * list Z)) :
  (forall cmd, snd (petrick cmd) = []) ->
  forall index,
    executed (fst (report verbose colored nt petrick n index cols))
    = commands verbose colored nt n cols
    /\ snd (report verbose colored nt petrick n index cols) = Ok tt.
Proof.
  intros Hok. induction cols as [|[m d] cols IH]; intros index;
    cbn [report].
  - split; reflexivity.
  - unfold executeCommand.
    specialize (Hok (command verbose colored nt n m d)).
    destruct (petrick (command verbose colored nt n m d)) as [out err].
    cbn [snd] in Hok. subst err.
    destruct (IH (S index)) as [Hk Hr].
    destruct (report verbose colored nt petrick n (S index) cols)
      as [evs' r]. cbn [fst snd] in *.
    split; [|exact Hr].
    rewrite !executed_app, Hk. reflexivity.
Qed.

End Invocations.

Lemma combine_by_index {B : Type} (f : list Z * list Z -> B)
  (ms ds : list (list Z)) :
  length ms = length ds ->
  map f (combine ms ds)
  = map (fun j => f (nth j ms [], nth j ds [])) (seq 0 (length ms)).
Proof.
  revert ds. induction ms as [|m ms IH]; intros [|d ds] L;
    try discriminate; [reflexivity|].
  simpl in L. injection L as L. cbn [combine map length seq].
  rewrite (IH ds L), <- seq_shift, map_map. reflexivity.
Qed.

(** C7. Each list handed to the reducer is a bracketed, comma-separated
    list of decimal integers without any blank, and [main] invokes the
    reducer on the columns in the order [0 .. outFuncCount - 1], once
    each, every command carrying [inputCount] and the two lists of its
    column: the commands executed are always an initial part of that
    sequence, and the whole of it when no invocation writes to standard
    error. *)
Theorem reducer_invocations (verbose colored nt : bool)
  (petrick : str -> str * str) (lines : list str) (s : locals) :
  compile lines unbound = Ok s ->
  let invocations :=
    map (fun j => command verbose colored nt (inputCount s)
                    (nth j (minterms s) []) (nth j (dnc s) []))
        (seq 0 (outFuncCount s)) in
  let run := main verbose colored nt petrick lines in
  (forall m,
     mstr m = "[" :: Py.join (lit ",") (map Py.str_int m) ++ ["]"]
     /\ ~ In " " (mstr m))
  /\ (exists k, executed (fst run) = firstn k invocations)
  /\ ((forall cmd, snd (petrick cmd) = []) ->
        executed (fst run) = invocations /\ snd run = Ok tt).
Proof.
  intros Hc invocations run.
  destruct (compile_columns lines unbound s Hc) as (Lm & Ld & _).
  assert (Hinv : commands verbose colored nt (inputCount s)
                   (combine (minterms s) (dnc s)) = invocations).
  { unfold commands, invocations.
    rewrite (combine_by_index
               (fun c => command verbose colored nt (inputCount s)
                           (fst c) (snd c)))
      by congruence.
    rewrite Lm. reflexivity. }
  assert (Hrun : run = report verbose colored nt petrick (inputCount s) 0
                         (combine (minterms s) (dnc s))).
  { unfold run, main. rewrite Hc. reflexivity. }
  split; [|split].
  - intros m. split; [apply mstr_format | apply replace_blank_free].
  - rewrite Hrun, <- Hinv. apply report_prefix.
  - intros Hok. rewrite Hrun, <- Hinv. apply report_all. exact Hok.
Qed.

Lemma reducer_invocations_witness :
  executed
    (fst (main true false false (fun _ => ([], []))
            [line_of "1 x 0 | 1 x"; line_of "x x 1 | x 0"]))
  = [lit "./petrick -v  3 [4,6] [1,3,5,7]"; lit "./petrick -v  3 [] [4,6]"].
Proof.
  destruct (reducer_invocations true false false (fun _ => ([], []))
              [line_of "1 x 0 | 1 x"; line_of "x x 1 | x 0"]
              {| minterms := [[4; 6]%Z; []];
                 dnc := [[1; 3; 5; 7]%Z; [4; 6]%Z];
                 inputCount := 3; outFuncCount := 2 |} eq_refl)
    as (_ & _ & Hall).
  destruct (Hall (fun _ => eq_refl)) as [Hex _].
  rewrite Hex. reflexivity.
Defined.

(** ** Determinism *)

(** C9. Compilation is deterministic and keeps nothing from earlier
    runs: whatever the locals hold before it starts, the same lines give
    the same outcome (the same sets, or the same exception); run again
    from the locals it produced, it produces them again; and the
    serialized lists and commands derived from two runs are equal
    character for character. *)
Theorem compile_deterministic (lines : list str) (s1 s2 : locals) :
  compile lines s1 = compile lines s2
  /\ (forall r, compile lines s1 = Ok r -> compile lines r = Ok r)
  /\ (forall r1 r2,
        compile lines s1 = Ok r1 -> compile lines s2 = Ok r2 ->
        minterms r1 = minterms r2 /\ dnc r1 = dnc r2
        /\ map mstr (minterms r1) = map mstr (minterms r2)
        /\ map mstr (dnc r1) = map mstr (dnc r2)
        /\ forall verbose colored nt,
             commands verbose colored nt (inputCount r1)
               (combine (minterms r1) (dnc r1))
             = commands verbose colored nt (inputCount r2)
                 (combine (minterms r2) (dnc r2))).
Proof.
  assert (H : forall a b, compile lines a = compile lines b)
    by (intros a b; rewrite !compile_fresh; reflexivity).
  split; [apply H|]. split.
  - intros r Hr. rewrite (H r s1). exact Hr.
  - intros r1 r2 H1 H2. rewrite (H s1 s2), H2 in H1.
    injection H1 as <-. repeat split; reflexivity.
Qed.

Lemma compile_deterministic_witness :
  compile [line_of "1 x 0 | 1 x"] (fresh 7 9)
  = Ok {| minterms := [[4; 6]%Z; []]; dnc := [[]; [4; 6]%Z];
          inputCount := 3; outFuncCount := 2 |}
  /\ compile [line_of "1 x 0 | 1 x"]
       {| minterms := [[4; 6]%Z; []]; dnc := [[]; [4; 6]%Z];
          inputCount := 3; outFuncCount := 2 |}
     = Ok {| minterms := [[4; 6]%Z; []]; dnc := [[]; [4; 6]%Z];
             inputCount := 3; outFuncCount := 2 |}.
Proof.
  destruct (compile_deterministic [line_of "1 x 0 | 1 x"] unbound (fresh 7 9))
    as (Heq & Hagain & _).
  split.
  - rewrite <- Heq. reflexivity.
  - apply Hagain. reflexivity.
Defined.

(** * Further properties *)

(** ** The expansion as a set of values *)

Lemma values_bounds (p : str) (acc v : Z) :
  In v (values acc p) ->
  (acc * 2 ^ Z.of_nat (length p) <= v
   < (acc + 1) * 2 ^ Z.of_nat (length p))%Z.
Proof.
  intros Hin. apply values_shiftr in Hin. destruct Hin as [Hs _].
  rewrite Z.shiftr_div_pow2 in Hs by lia.
  assert (Hpos : (0 < 2 ^ Z.of_nat (length p))%Z)
    by (apply Z.pow_pos_nonneg; lia).
  pose proof (Z.mul_div_le v _ Hpos) as H1.
  pose proof (Z.mul_succ_div_gt v _ Hpos) as H2.
  rewrite Hs in H1, H2. lia.
Qed.

Lemma StronglySorted_append (l1 l2 : list Z) :
  StronglySorted Z.lt l1 -> StronglySorted Z.lt l2 ->
  (forall a b, In a l1 -> In b l2 -> (a < b)%Z) ->
  StronglySorted Z.lt (l1 ++ l2).
Proof.
  intros H1 H2 Hlt. induction H1 as [|a l Hl IH Ha]; simpl; [exact H2|].
  constructor.
  - apply IH. intros x y Hx Hy. apply Hlt; [right; exact Hx | exact Hy].
  - apply Forall_app. split; [exact Ha|].
    apply Forall_forall. intros b Hb. apply Hlt; [left; reflexivity | exact Hb].
Qed.

Lemma values_sorted (p : str) :
  forall acc, StronglySorted Z.lt (values acc p).
Proof.
  induction p as [|c r IH]; intros acc; simpl.
  - constructor; constructor.
  - destruct (Ascii.eqb c "x"); [|apply IH].
    apply StronglySorted_append; [apply IH | apply IH |].
    intros a b Ha Hb.
    apply values_bounds in Ha. apply values_bounds in Hb. lia.
Qed.

(** X1. The expansion of a pattern over [0], [1], [x], blanks allowed
    between its symbols, is strictly increasing: the indices of a row
    reach the sets in ascending order. *)
Theorem expansion_ascending (p : str) :
  Forall symbol (Py.replace " " [] p) -> Py.replace " " [] p <> [] ->
  exists l, fromRowToNumbers p = Ok l /\ StronglySorted Z.lt l.
Proof.
  intros Hp Hne. exists (values 0 (Py.replace " " [] p)). split.
  - rewrite fromRowToNumbers_blanks. apply fromRowToNumbers_values; assumption.
  - apply values_sorted.
Qed.

Lemma expansion_ascending_witness :
  exists l, fromRowToNumbers (lit "x 1 x") = Ok l /\ StronglySorted Z.lt l.
Proof.
  apply (expansion_ascending (lit "x 1 x")).
  - vm_compute. repeat (apply Forall_cons; [unfold symbol; auto|]).
    apply Forall_nil.
  - discriminate.
Defined.

Lemma shiftr_bit (v : Z) (m : nat) :
  Z.shiftr v (Z.of_nat m)
  = (2 * Z.shiftr v (Z.of_nat (S m))
     + Z.b2z (Z.testbit v (Z.of_nat m)))%Z.
Proof.
  rewrite Nat2Z.inj_succ, <- Z.add_1_r, <- Z.shiftr_shiftr by lia.
  rewrite <- Z.div2_spec.
  replace (Z.testbit v (Z.of_nat m))
    with (Z.odd (Z.shiftr v (Z.of_nat m))).
  - apply Z.div2_odd.
  - rewrite <- Z.bit0_odd, Z.shiftr_spec by lia. reflexivity.
Qed.

Lemma consistent_tail (c : ascii) (r : str) (v : Z) :
  consistent (c :: r) v -> consistent r v.
Proof.
  intros H i c' Hnth Hx.
  assert (Hi : i < length r) by (apply nth_error_Some; congruence).
  specialize (H (S i) c' Hnth Hx).
  replace (length (c :: r) - 1 - S i) with (length r - 1 - i) in H
    by (simpl; lia).
  exact H.
Qed.

(** Every value whose bits above the pattern are [acc] and whose other
    bits follow the literal symbols is among the values. *)
Lemma values_complete (p : str) :
  Forall symbol p ->
  forall acc v,
    Z.shiftr v (Z.of_nat (length p)) = acc -> consistent p v ->
    In v (values acc p).
Proof.
  induction 1 as [|c r Hc _ IH]; intros acc v Hs Hcons.
  - simpl in Hs. rewrite Z.shiftr_0_r in Hs. left. symmetry. exact Hs.
  - pose proof (shiftr_bit v (length r)) as Hb.
    change (Z.of_nat (S (length r))) with (Z.of_nat (length (c :: r))) in Hb.
    rewrite Hs in Hb.
    pose proof (consistent_tail c r v Hcons) as Htail.
    simpl. destruct (symbol_cases c Hc) as [[-> E] | (Hx & E & _)].
    + simpl. apply in_or_app.
      destruct (Z.testbit v (Z.of_nat (length r))); simpl in Hb.
      * right. apply IH; assumption.
      * left. apply IH; [|exact Htail]. rewrite Hb. lia.
    + rewrite E. apply IH; [|exact Htail].
      specialize (Hcons 0 c eq_refl Hx).
      replace (length (c :: r) - 1 - 0) with (length r) in Hcons
        by (simpl; lia).
      rewrite Hb, Hcons. unfold Py.bit_value.
      destruct (Ascii.eqb c "1"); reflexivity.
Qed.

(** X2. The expansion is complete: for a pattern over [0], [1], [x] an
    integer is produced exactly when it lies in the range of the pattern
    and agrees with every literal bit of it. *)
Theorem expansion_membership (p : str) (v : Z) :
  Forall symbol p -> p <> [] ->
  exists l,
    fromRowToNumbers p = Ok l
    /\ (In v l <->
        (0 <= v < 2 ^ Z.of_nat (length p))%Z /\ consistent p v).
Proof.
  intros Hp Hne. exists (values 0 p).
  split; [apply fromRowToNumbers_values; assumption|]. split.
  - intros Hin. split; [apply values_range; exact Hin|].
    apply (values_shiftr p 0 v Hin).
  - intros [Hr Hcons]. apply values_complete; [exact Hp | | exact Hcons].
    rewrite Z.shiftr_div_pow2 by lia. apply Z.div_small. exact Hr.
Qed.

Lemma expansion_membership_witness :
  exists l,
    fromRowToNumbers (lit "1x0") = Ok l
    /\ (In 6%Z l <->
        (0 <= 6 < 2 ^ Z.of_nat (length (lit "1x0")))%Z
        /\ consistent (lit "1x0") 6%Z).
Proof.
  apply (expansion_membership (lit "1x0") 6%Z).
  - unfold lit. simpl.
    repeat (apply Forall_cons; [unfold symbol; auto|]). apply Forall_nil.
  - discriminate.
Defined.

(** ** The expansion of an arbitrary string *)

Lemma count_x_no_wildcard (p : str) :
  Py.contains "x" p = false -> count_x p = 0.
Proof.
  unfold Py.contains. induction p as [|c r IH]; [reflexivity|].
  simpl. intros H. apply orb_false_iff in H. destruct H as [Hc Hr].
  rewrite count_x_cons, Ascii.eqb_sym, Hc. apply IH. exact Hr.
Qed.

Lemma count_x_replace_first (new : ascii) (p : str) :
  Ascii.eqb new "x" = false ->
  Py.contains "x" p = true ->
  S (count_x (Py.replace_count "x" [new] 1 p)) = count_x p.
Proof.
  intros Hnew. unfold Py.contains.
  induction p as [|c r IH]; simpl; intros Hin; [discriminate|].
  rewrite Ascii.eqb_sym in Hin. rewrite (count_x_cons c r).
  destruct (Ascii.eqb c "x") eqn:Hc; simpl.
  - rewrite replace_count_0, count_x_cons, Hnew. reflexivity.
  - simpl in Hin. rewrite count_x_cons, Hc. apply IH. exact Hin.
Qed.

(** X3. Whatever the string, when [fromRowToNumbers] returns it returns
    exactly [2^k] integers, [k] being the number of ['x'] in its
    argument; in particular its result is never empty. *)
Theorem expansion_count (p : str) (l : list Z) :
  fromRowToNumbers p = Ok l ->
  length l = 2 ^ count_x p /\ l <> [].
Proof.
  intros H.
  assert (Hlen : length l = 2 ^ count_x p).
  { revert l H. pattern p. apply wildcard_ind; clear p.
    - intros p Hx l. rewrite (fromRowToNumbers_leaf p Hx).
      rewrite (count_x_no_wildcard p Hx).
      destruct (Py.int2 (Py.replace " " [] p)); [|discriminate].
      intros [= <-]. reflexivity.
    - intros p Hx IH0 IH1 l. rewrite (fromRowToNumbers_wild p Hx).
      destruct (fromRowToNumbers (Py.replace_count "x" (lit "0") 1 p))
        as [r0|e0]; cbn [bind]; [|discriminate].
      destruct (fromRowToNumbers (Py.replace_count "x" (lit "1") 1 p))
        as [r1|e1]; cbn [bind]; [|discriminate].
      intros [= <-].
      rewrite length_app, (IH0 r0 eq_refl), (IH1 r1 eq_refl).
      rewrite <- (count_x_replace_first "0" p eq_refl Hx).
      pose proof (count_x_replace_first "0" p eq_refl Hx) as E0.
      pose proof (count_x_replace_first "1" p eq_refl Hx) as E1.
      unfold lit; simpl list_ascii_of_string.
      assert (E : count_x (Py.replace_count "x" ["1"] 1 p)
                  = count_x (Py.replace_count "x" ["0"] 1 p)) by lia.
      rewrite E. simpl. lia. }
  split; [exact Hlen|].
  intros ->. simpl in Hlen.
  pose proof (Nat.pow_nonzero 2 (count_x p)). lia.
Qed.

Lemma expansion_count_witness :
  length [2%Z; 6%Z] = 2 ^ count_x (lit "0b x_10") /\ [2%Z; 6%Z] <> [].
Proof.
  apply (expansion_count (lit "0b x_10") [2%Z; 6%Z]). reflexivity.
Defined.

(** X4. Blanks in a pattern do not matter: two strings that are equal
    once their blanks are removed have the same outcome, the same
    integers or the same exception. *)
Theorem blanks_do_not_matter (p q : str) :
  Py.replace " " [] p = Py.replace " " [] q ->
  fromRowToNumbers p = fromRowToNumbers q.
Proof.
  intros H.
  rewrite (fromRowToNumbers_blanks p), (fromRowToNumbers_blanks q), H.
  reflexivity.
Qed.

Lemma blanks_do_not_matter_witness :
  fromRowToNumbers (lit "1 x0 2") = fromRowToNumbers (lit " 1x 02").
Proof.
  apply (blanks_do_not_matter (lit "1 x0 2") (lit " 1x 02")). reflexivity.
Defined.

Lemma fill_no_wildcard (p : str) (a : list bool) :
  Py.contains "x" p = false -> fill p a = p.
Proof.
  unfold Py.contains. induction p as [|c r IH]; [reflexivity|].
  simpl. intros H. apply orb_false_iff in H. destruct H as [Hc Hr].
  rewrite Ascii.eqb_sym in Hc. rewrite Hc, IH by exact Hr. reflexivity.
Qed.

Lemma fill_replace_first (b : bool) (a : list bool) (p : str) :
  Py.contains "x" p = true ->
  fill p (b :: a)
  = fill (Py.replace_count "x" [if b then "1" else "0"] 1 p) a.
Proof.
  unfold Py.contains. induction p as [|c r IH]; simpl; intros Hin;
    [discriminate|].
  rewrite Ascii.eqb_sym in Hin.
  destruct (Ascii.eqb c "x") eqn:Hc; simpl.
  - rewrite replace_count_0. destruct b; reflexivity.
  - simpl in Hin. rewrite Hc, IH by exact Hin. reflexivity.
Qed.

(** X5. [fromRowToNumbers] fails in one way only: with [ValueError], on
    a literal that is its argument with the blanks removed and every
    wildcard set to a binary digit, and that [int(s, 2)] rejects. *)
Theorem expansion_error (p : str) (e : exn) :
  fromRowToNumbers p = Raise e ->
  exists a,
    length a = count_x p
    /\ e = ValueError (Py.replace " " [] (fill p a))
    /\ Py.int2 (Py.replace " " [] (fill p a)) = None.
Proof.
  revert e. pattern p. apply wildcard_ind; clear p.
  - intros p Hx e. rewrite (fromRowToNumbers_leaf p Hx).
    destruct (Py.int2 (Py.replace " " [] p)) eqn:Hint; [discriminate|].
    intros [= <-]. exists [].
    rewrite (count_x_no_wildcard p Hx), (fill_no_wildcard p [] Hx). auto.
  - intros p Hx IH0 IH1 e. rewrite (fromRowToNumbers_wild p Hx).
    destruct (fromRowToNumbers (Py.replace_count "x" (lit "0") 1 p))
      as [r0|e0]; cbn [bind].
    + destruct (fromRowToNumbers (Py.replace_count "x" (lit "1") 1 p))
        as [r1|e1]; cbn [bind]; [discriminate|].
      intros [= <-]. destruct (IH1 e1 eq_refl) as (a & La & He & Hi).
      exists (true :: a). rewrite (fill_replace_first true a p Hx).
      rewrite <- (count_x_replace_first "1" p eq_refl Hx).
      simpl. auto.
    + intros [= <-]. destruct (IH0 e0 eq_refl) as (a & La & He & Hi).
      exists (false :: a). rewrite (fill_replace_first false a p Hx).
      rewrite <- (count_x_replace_first "0" p eq_refl Hx).
      simpl. auto.
Qed.

Lemma expansion_error_witness :
  exists a,
    length a = count_x (lit "x 2 x")
    /\ ValueError (lit "020")
       = ValueError (Py.replace " " [] (fill (lit "x 2 x") a))
    /\ Py.int2 (Py.replace " " [] (fill (lit "x 2 x") a)) = None.
Proof.
  apply (expansion_error (lit "x 2 x") (ValueError (lit "020"))).
  reflexivity.
Defined.

(** ** The column counts *)

Lemma split_length_count (sep : ascii) (s : str) :
  length (Py.split sep s) = S (count_occ ascii_dec s sep).
Proof.
  induction s as [|c r IH]; [reflexivity|]. simpl.
  destruct (Ascii.eqb_spec c sep) as [-> | Hc].
  - destruct (ascii_dec sep sep) as [_|N]; [|contradiction].
    simpl. rewrite IH. reflexivity.
  - destruct (ascii_dec c sep) as [E|_]; [contradiction|].
    destruct (Py.split sep r) as [|p ps]; [discriminate|].
    simpl in *. exact IH.
Qed.

Lemma item_nth {A : Type} (l : list A) (i : nat) (a d : A) :
  item l i = Ok a -> nth i l d = a.
Proof.
  unfold item. destruct (nth_error l i) as [b|] eqn:E; [|discriminate].
  intros [= <-]. apply nth_error_nth. exact E.
Qed.

(** X6. After a successful compilation the two lists have exactly one
    entry per output column, both counts are at least one, and both are
    read off the first line alone: [inputCount] is one more than the
    number of blanks in its stripped input segment (not the number of
    pattern symbols), [outFuncCount] is the number of its output
    tokens. *)
Theorem compile_alignment (lines : list str) (s0 s : locals) :
  compile lines s0 = Ok s ->
  exists first rest,
    lines = first :: rest
    /\ inputCount s = S (count_occ ascii_dec (row_pattern first) " ")
    /\ outFuncCount s = length (row_tokens first)
    /\ length (minterms s) = outFuncCount s
    /\ length (dnc s) = outFuncCount s
    /\ inputCount s <> 0 /\ outFuncCount s <> 0.
Proof.
  intros Hc.
  destruct (compile_columns lines s0 s Hc) as (Lm & Ld & Hi & Ho).
  rewrite compile_fresh in Hc.
  destruct lines as [|first rest]; [discriminate|].
  exists first, rest. cbn [item nth_error bind] in Hc.
  destruct (item (Py.split "|" first) 0) as [a|e] eqn:Ha; cbn [bind] in Hc;
    [|discriminate].
  destruct (item (Py.split "|" first) 1) as [b|e] eqn:Hb; cbn [bind] in Hc;
    [|discriminate].
  apply rows_preserve in Hc;
    [|cbn [fresh minterms dnc]; rewrite !repeat_length; reflexivity].
  destruct Hc as (_ & _ & Ci & Co).
  cbn [fresh inputCount outFuncCount] in Ci, Co.
  unfold row_pattern, row_tokens.
  rewrite (item_nth _ 0 a [] Ha), (item_nth _ 1 b [] Hb).
  rewrite <- split_length_count. auto 10.
Qed.

Lemma compile_alignment_witness :
  exists first rest,
    [line_of "x1 | 1 x 0"] = first :: rest
    /\ inputCount (classified [1; 3]%Z [lit "1"; lit "x"; lit "0"] (fresh 1 3))
       = S (count_occ ascii_dec (row_pattern first) " ")
    /\ outFuncCount
         (classified [1; 3]%Z [lit "1"; lit "x"; lit "0"] (fresh 1 3))
       = length (row_tokens first)
    /\ length (minterms
                 (classified [1; 3]%Z [lit "1"; lit "x"; lit "0"] (fresh 1 3)))
       = outFuncCount
           (classified [1; 3]%Z [lit "1"; lit "x"; lit "0"] (fresh 1 3))
    /\ length (dnc
                 (classified [1; 3]%Z [lit "1"; lit "x"; lit "0"] (fresh 1 3)))
       = outFuncCount
           (classified [1; 3]%Z [lit "1"; lit "x"; lit "0"] (fresh 1 3))
    /\ inputCount (classified [1; 3]%Z [lit "1"; lit "x"; lit "0"] (fresh 1 3))
       <> 0
    /\ outFuncCount
         (classified [1; 3]%Z [lit "1"; lit "x"; lit "0"] (fresh 1 3))
       <> 0.
Proof.
  apply (compile_alignment [line_of "x1 | 1 x 0"] unbound). reflexivity.
Defined.

(** X10. A table without lines, or whose first line has no separator,
    fails with [IndexError] before any row is read, whatever the other
    lines hold. *)
Theorem compile_missing_separator (s : locals) :
  compile [] s = Raise IndexError
  /\ (forall first rest,
        ~ In "|" first -> compile (first :: rest) s = Raise IndexError).
Proof.
  split; [reflexivity|].
  intros first rest Hsep. rewrite compile_fresh.
  cbn [item nth_error bind].
  rewrite (split_no_sep "|" first); [reflexivity|].
  apply Forall_forall. intros c Hc.
  destruct (Ascii.eqb_spec c "|") as [-> | _]; [contradiction|reflexivity].
Qed.

Lemma compile_missing_separator_witness :
  compile [line_of "0 1 1"; line_of "0 0 | 1"] unbound = Raise IndexError.
Proof.
  apply (compile_missing_separator unbound).
  vm_compute. intuition discriminate.
Defined.

(** ** The sets as a function of the rows *)

Lemma row_classified (line : str) (s s' : locals) :
  length (minterms s) = length (dnc s) ->
  row line s = Ok s' ->
  fromRowToNumbers (row_pattern line) = Ok (row_indices line)
  /\ s' = classified (row_indices line) (row_tokens line) s.
Proof.
  intros L. unfold row, row_indices, row_pattern, row_tokens.
  destruct (item (Py.split "|" line) 0) as [seg0|e] eqn:H0; cbn [bind];
    [|discriminate].
  rewrite (item_nth _ 0 seg0 [] H0).
  destruct (fromRowToNumbers (Py.strip seg0)) as [inputs|e]; cbn [bind];
    [|discriminate].
  destruct (item (Py.split "|" line) 1) as [seg1|e] eqn:H1; cbn [bind];
    [|discriminate].
  rewrite (item_nth _ 1 seg1 [] H1).
  rewrite classify_columns by exact L.
  destruct (existsb is_mark _); [discriminate|].
  intros [= <-]. split; reflexivity.
Qed.

Lemma nth_extend_cols (mark : str) (inputs : list Z) :
  mark <> [] ->
  forall outputs cols j,
    j < length cols ->
    nth j (extend_cols mark inputs outputs cols) []
    = nth j cols []
      ++ (if str_eqb (nth j outputs []) mark then inputs else []).
Proof.
  intros Hmark.
  assert (Hnil : str_eqb [] mark = false)
    by (apply str_eqb_neq; congruence).
  induction outputs as [|out outs IH]; intros cols j Hj.
  - assert (E : extend_cols mark inputs [] cols = cols)
      by (destruct cols; reflexivity).
    rewrite E. destruct j; simpl; rewrite Hnil, app_nil_r; reflexivity.
  - destruct cols as [|col cols]; [simpl in Hj; lia|].
    destruct j as [|j]; simpl.
    + destruct (str_eqb out mark); [reflexivity | rewrite app_nil_r; reflexivity].
    + apply IH. simpl in Hj. lia.
Qed.

Lemma rows_sets (lines : list str) :
  forall s s',
    length (minterms s) = length (dnc s) ->
    rows lines s = Ok s' ->
    forall j, j < length (minterms s) ->
      nth j (minterms s') []
      = nth j (minterms s) [] ++ flat_map (selected (lit "1") j) lines
      /\ nth j (dnc s') []
         = nth j (dnc s) [] ++ flat_map (selected (lit "x") j) lines.
Proof.
  induction lines as [|line lines IH]; intros s s' L; cbn [rows].
  - intros [= <-] j _. simpl. rewrite !app_nil_r. auto.
  - destruct (row line s) as [s1|e] eqn:Hrow; cbn [bind]; [|discriminate].
    intros Hrows j Hj.
    destruct (row_preserves line s s1 L Hrow) as (A & B & _).
    assert (L1 : length (minterms s1) = length (dnc s1)) by congruence.
    assert (Hj1 : j < length (minterms s1)) by lia.
    destruct (IH s1 s' L1 Hrows j Hj1) as [Hm Hd].
    destruct (row_classified line s s1 L Hrow) as [_ E].
    rewrite Hm, Hd, E. unfold classified; cbn [minterms dnc flat_map].
    rewrite !nth_extend_cols by (try discriminate; lia).
    unfold selected. rewrite <- !app_assoc. auto.
Qed.

(** A successful compilation is the loop over the lines, started from
    empty sets with the counts it ends with. *)
Lemma compile_rows (lines : list str) (s0 s : locals) :
  compile lines s0 = Ok s ->
  rows lines (fresh (inputCount s) (outFuncCount s)) = Ok s.
Proof.
  rewrite compile_fresh.
  destruct (item lines 0) as [l0|e]; cbn [bind]; [|discriminate].
  destruct (item (Py.split "|" l0) 0) as [a|e]; cbn [bind]; [|discriminate].
  destruct (item (Py.split "|" l0) 1) as [b|e]; cbn [bind]; [|discriminate].
  intros Hc. pose proof Hc as Hp. apply rows_preserve in Hp;
    [|cbn [fresh minterms dnc]; rewrite !repeat_length; reflexivity].
  destruct Hp as (_ & _ & Ci & Co).
  cbn [fresh inputCount outFuncCount] in Ci, Co. rewrite Ci, Co. exact Hc.
Qed.

Lemma fresh_columns (n k : nat) :
  length (minterms (fresh n k)) = length (dnc (fresh n k))
  /\ length (minterms (fresh n k)) = k
  /\ forall j, nth j (minterms (fresh n k)) [] = []
               /\ nth j (dnc (fresh n k)) [] = [].
Proof.
  cbn [fresh minterms dnc]. rewrite !repeat_length.
  repeat split; apply nth_repeat.
Qed.

(** X7. After a successful compilation, [minterms[j]] is the
    concatenation, in the order of the lines, of the expansions of the
    lines whose token [j] is [1], and [dnc[j]] the same for the token
    [x]: row order then expansion order, nothing dropped, merged or
    reordered, duplicates kept. *)
Theorem compile_sets (lines : list str) (s0 s : locals) (j : nat) :
  compile lines s0 = Ok s ->
  j < outFuncCount s ->
  nth j (minterms s) [] = flat_map (selected (lit "1") j) lines
  /\ nth j (dnc s) [] = flat_map (selected (lit "x") j) lines.
Proof.
  intros Hc Hj. apply compile_rows in Hc.
  destruct (fresh_columns (inputCount s) (outFuncCount s)) as (L & Lk & Hnil).
  destruct (rows_sets lines _ s L Hc j) as [Hm Hd]; [lia|].
  destruct (Hnil j) as [Nm Nd]. rewrite Nm in Hm. rewrite Nd in Hd.
  split; assumption.
Qed.

Lemma compile_sets_witness :
  nth 0 [[4; 6; 4]%Z; []] []
  = flat_map (selected (lit "1") 0)
      [line_of "1 x 0 | 1 x"; line_of "1 0 0 | 1 0"]
  /\ nth 0 [[]; [4; 6]%Z] []
     = flat_map (selected (lit "x") 0)
         [line_of "1 x 0 | 1 x"; line_of "1 0 0 | 1 0"].
Proof.
  apply (compile_sets [line_of "1 x 0 | 1 x"; line_of "1 0 0 | 1 0"]
           unbound
           {| minterms := [[4; 6; 4]%Z; []]; dnc := [[]; [4; 6]%Z];
              inputCount := 3; outFuncCount := 2 |} 0).
  - reflexivity.
  - simpl. lia.
Defined.

Lemma in_selected (mark : str) (j : nat) (lines : list str) (v : Z) :
  In v (flat_map (selected mark j) lines) <->
  exists line,
    In line lines /\ nth j (row_tokens line) [] = mark
    /\ In v (row_indices line).
Proof.
  rewrite in_flat_map. unfold selected. split.
  - intros (line & Hl & Hv). exists line.
    destruct (str_eqb (nth j (row_tokens line) []) mark) eqn:E;
      [|destruct Hv].
    apply str_eqb_eq in E. auto.
  - intros (line & Hl & Ht & Hv). exists line. split; [exact Hl|].
    apply str_eqb_eq in Ht. rewrite Ht. exact Hv.
Qed.

(** X8. An index stands in [minterms[j]] exactly when some line with
    token [j] equal to [1] expands to it, and in [dnc[j]] when some line
    with token [x] does; an index found in both sets of one column
    therefore comes from two different lines of the table. *)
Theorem set_membership (lines : list str) (s0 s : locals) (j : nat)
  (v : Z) :
  compile lines s0 = Ok s ->
  j < outFuncCount s ->
  (In v (nth j (minterms s) []) <->
     exists line, In line lines /\ nth j (row_tokens line) [] = lit "1"
                  /\ In v (row_indices line))
  /\ (In v (nth j (dnc s) []) <->
        exists line, In line lines /\ nth j (row_tokens line) [] = lit "x"
                     /\ In v (row_indices line))
  /\ (In v (nth j (minterms s) []) -> In v (nth j (dnc s) []) ->
        exists l1 l2,
          In l1 lines /\ In l2 lines /\ l1 <> l2
          /\ In v (row_indices l1) /\ In v (row_indices l2)).
Proof.
  intros Hc Hj.
  apply compile_rows in Hc.
  destruct (fresh_columns (inputCount s) (outFuncCount s)) as (L & Lk & Hnil).
  destruct (rows_sets lines _ s L Hc j) as [Hm Hd]; [lia|].
  destruct (Hnil j) as [Nm Nd]. rewrite Nm in Hm. rewrite Nd in Hd.
  simpl in Hm, Hd.
  rewrite Hm, Hd. split; [apply in_selected|]. split; [apply in_selected|].
  intros H1 Hx.
  apply in_selected in H1. apply in_selected in Hx.
  destruct H1 as (l1 & I1 & T1 & V1). destruct Hx as (l2 & I2 & T2 & V2).
  exists l1, l2. repeat split; try assumption.
  intros ->. rewrite T1 in T2. discriminate.
Qed.

Lemma set_membership_witness :
  In 4%Z (nth 0 [[4; 6; 4]%Z; []] []) <->
  exists line,
    In line [line_of "1 x 0 | 1 x"; line_of "1 0 0 | 1 0"]
    /\ nth 0 (row_tokens line) [] = lit "1"
    /\ In 4%Z (row_indices line).
Proof.
  apply (set_membership [line_of "1 x 0 | 1 x"; line_of "1 0 0 | 1 0"]
           unbound
           {| minterms := [[4; 6; 4]%Z; []]; dnc := [[]; [4; 6]%Z];
              inputCount := 3; outFuncCount := 2 |} 0 4%Z).
  - reflexivity.
  - simpl. lia.
Defined.

(** ** Tables built by appending lines *)

Lemma rows_app (pre post : list str) :
  forall s, rows (pre ++ post) s = (s1 <- rows pre s ;; rows post s1).
Proof.
  induction pre as [|line pre IH]; intros s; [reflexivity|].
  cbn [app rows]. destruct (row line s) as [s1|e]; cbn [bind];
    [apply IH | reflexivity].
Qed.

(** X9. Compilation runs through the lines in order: once a table has
    compiled, compiling it with more lines appended continues from the
    locals it produced; so the exception of the first failing line is
    the outcome, whatever follows that line. *)
Theorem compile_app (pre post : list str) (s0 s1 : locals) :
  compile pre s0 = Ok s1 ->
  compile (pre ++ post) s0 = rows post s1
  /\ (forall line rest e,
        post = line :: rest -> row line s1 = Raise e ->
        compile (pre ++ post) s0 = Raise e).
Proof.
  intros Hc.
  assert (H : compile (pre ++ post) s0 = rows post s1).
  { rewrite compile_fresh in Hc. rewrite compile_fresh.
    destruct pre as [|first pre]; [discriminate|].
    cbn [app item nth_error bind] in *.
    destruct (item (Py.split "|" first) 0) as [a|e]; cbn [bind] in *;
      [|discriminate].
    destruct (item (Py.split "|" first) 1) as [b|e]; cbn [bind] in *;
      [|discriminate].
    change (first :: pre ++ post) with ((first :: pre) ++ post).
    rewrite rows_app, Hc. reflexivity. }
  split; [exact H|].
  intros line rest e -> Hrow. rewrite H. cbn [rows]. rewrite Hrow.
  reflexivity.
Qed.

Lemma compile_app_witness :
  compile ([line_of "0 1 | 1"] ++ [line_of "1 2 | 1"; line_of "1 1 | 1"])
    unbound
  = rows [line_of "1 2 | 1"; line_of "1 1 | 1"]
      {| minterms := [[1%Z]]; dnc := [[]];
         inputCount := 2; outFuncCount := 1 |}.
Proof.
  apply (compile_app [line_of "0 1 | 1"]
           [line_of "1 2 | 1"; line_of "1 1 | 1"] unbound).
  reflexivity.
Defined.

(** ** A reducer that reports an error *)

Section Failure.

Variables (verbose colored nt : bool).
Variable petrick : str -> str * str.

Lemma report_failure (n : nat) (cols : list (list Z * list Z)) :
  forall index k,
    k < length cols ->
    (forall j, j < k ->
       snd (petrick (nth j (commands verbose colored nt n cols) [])) = []) ->
    snd (petrick (nth k (commands verbose colored nt n cols) [])) <> [] ->
    executed (fst (report verbose colored nt petrick n index cols))
    = firstn (S k) (commands verbose colored nt n cols)
    /\ snd (report verbose colored nt petrick n index cols)
       = Raise CalledProcessError
    /\ exists evs,
         fst (report verbose colored nt petrick n index cols)
         = evs ++ [Execute (nth k (commands verbose colored nt n cols) [])].
Proof.
  induction cols as [|[m d] cols IH]; intros index k Hk Hok Hbad;
    [simpl in Hk; lia|].
  cbn [report]. unfold executeCommand.
  destruct k as [|k].
  - cbn [commands map nth fst snd] in Hbad.
    destruct (petrick (command verbose colored nt n m d)) as [out err].
    cbn [snd] in Hbad. destruct err as [|c err]; [contradiction|].
    cbn [fst snd]. split; [|split].
    + rewrite executed_app. reflexivity.
    + reflexivity.
    + eexists. cbn [commands map nth fst snd]. reflexivity.
  - pose proof (Hok 0 ltac:(lia)) as H0.
    cbn [commands map nth fst snd] in H0.
    destruct (petrick (command verbose colored nt n m d)) as [out err].
    cbn [snd] in H0. subst err.
    destruct (IH (S index) k) as (He & Hr & evs & Hevs).
    + simpl in Hk. lia.
    + intros j Hj. apply (Hok (S j)). lia.
    + exact Hbad.
    + destruct (report verbose colored nt petrick n (S index) cols)
        as [evs' r]. cbn [fst snd] in *.
      split; [|split].
      * rewrite !executed_app, He. reflexivity.
      * exact Hr.
      * eexists. cbn [commands map nth fst snd]. rewrite Hevs.
        rewrite !app_assoc. reflexivity.
Qed.

End Failure.

(** X11. When the reducer writes to standard error for column [k], and
    did not for the columns before it, [main] stops there with
    [CalledProcessError]: the commands executed are those of the columns
    [0 .. k], the failing command is the last thing the run does (its
    standard output is not printed), and no later column is handed to
    the reducer. *)
Theorem reducer_failure_aborts (verbose colored nt : bool)
  (petrick : str -> str * str) (lines : list str) (s : locals) (k : nat) :
  compile lines unbound = Ok s ->
  let invocations :=
    map (fun j => command verbose colored nt (inputCount s)
                    (nth j (minterms s) []) (nth j (dnc s) []))
        (seq 0 (outFuncCount s)) in
  let run := main verbose colored nt petrick lines in
  k < outFuncCount s ->
  (forall j, j < k -> snd (petrick (nth j invocations [])) = []) ->
  snd (petrick (nth k invocations [])) <> [] ->
  executed (fst run) = firstn (S k) invocations
  /\ snd run = Raise CalledProcessError
  /\ exists evs, fst run = evs ++ [Execute (nth k invocations [])].
Proof.
  intros Hc invocations run Hk Hok Hbad.
  destruct (compile_columns lines unbound s Hc) as (Lm & Ld & _).
  assert (Hinv : commands verbose colored nt (inputCount s)
                   (combine (minterms s) (dnc s)) = invocations).
  { unfold commands, invocations.
    rewrite (combine_by_index
               (fun c => command verbose colored nt (inputCount s)
                           (fst c) (snd c)))
      by congruence.
    rewrite Lm. reflexivity. }
  assert (Hrun : run = report verbose colored nt petrick (inputCount s) 0
                         (combine (minterms s) (dnc s))).
  { unfold run, main. rewrite Hc. reflexivity. }
  rewrite Hrun, <- Hinv. apply report_failure.
  - rewrite length_combine, Lm, Ld. lia.
  - rewrite Hinv. exact Hok.
  - rewrite Hinv. exact Hbad.
Qed.

Lemma reducer_failure_aborts_witness :
  executed
    (fst (main false false false
            (fun cmd => ([], if str_eqb cmd (lit "./petrick  3 [] [4,6]")
                             then lit "error" else []))
            [line_of "1 x 0 | 1 x 0"; line_of "x x 1 | x 0 1"]))
  = [lit "./petrick  3 [4,6] [1,3,5,7]"; lit "./petrick  3 [] [4,6]"].
Proof.
  destruct (reducer_failure_aborts false false false
              (fun cmd => ([], if str_eqb cmd (lit "./petrick  3 [] [4,6]")
                               then lit "error" else []))
              [line_of "1 x 0 | 1 x 0"; line_of "x x 1 | x 0 1"]
              {| minterms := [[4; 6]%Z; []; [1; 3; 5; 7]%Z];
                 dnc := [[1; 3; 5; 7]%Z; [4; 6]%Z; []];
                 inputCount := 3; outFuncCount := 3 |} 1 eq_refl)
    as (Hex & _).
  - simpl. lia.
  - intros [|j] Hj; [reflexivity | lia].
  - discriminate.
  - rewrite Hex. reflexivity.
Defined.

(** ** The serialized lists determine the sets *)

Lemma string_of_uint_no_comma (d : Decimal.uint) :
  Forall (fun c => Ascii.eqb c "," = false)
    (list_ascii_of_string (NilEmpty.string_of_uint d)).
Proof.
  induction d; simpl; constructor; try reflexivity; assumption.
Qed.

Lemma str_int_no_comma (n : Z) :
  Forall (fun c => Ascii.eqb c "," = false) (Py.str_int n).
Proof.
  unfold Py.str_int, NilEmpty.string_of_int.
  destruct (Z.to_int n); simpl.
  - apply string_of_uint_no_comma.
  - constructor; [reflexivity | apply string_of_uint_no_comma].
Qed.

Lemma str_int_nonempty (n : Z) : Py.str_int n <> [].
Proof.
  unfold Py.str_int. destruct n as [|p|p]; simpl; try discriminate.
  pose proof (DecimalPos.Unsigned.to_uint_nonnil p) as Hp.
  destruct (Pos.to_uint p); [contradiction | ..]; discriminate.
Qed.

Lemma str_int_inj (n n' : Z) : Py.str_int n = Py.str_int n' -> n = n'.
Proof.
  unfold Py.str_int. intros H.
  apply (f_equal string_of_list_ascii) in H.
  rewrite !string_of_list_ascii_of_string in H.
  apply (f_equal NilEmpty.int_of_string) in H.
  rewrite !NilEmpty.isi in H. injection H as H.
  apply DecimalZ.to_int_inj. exact H.
Qed.

Lemma split_app_sep (sep : ascii) (p rest : str) :
  Forall (fun c => Ascii.eqb c sep = false) p ->
  Py.split sep (p ++ sep :: rest) = p :: Py.split sep rest.
Proof.
  induction 1 as [|c r Hc _ IH]; simpl.
  - rewrite Ascii.eqb_refl. reflexivity.
  - rewrite Hc, IH. reflexivity.
Qed.

Lemma split_join (sep : ascii) (parts : list str) :
  parts <> [] ->
  Forall (Forall (fun c => Ascii.eqb c sep = false)) parts ->
  Py.split sep (Py.join [sep] parts) = parts.
Proof.
  intros Hne Hparts. induction Hparts as [|p ps Hp Hps IH];
    [contradiction|].
  destruct ps as [|q ps]; [apply split_no_sep; exact Hp|].
  change (Py.join [sep] (p :: q :: ps))
    with (p ++ sep :: Py.join [sep] (q :: ps)).
  rewrite split_app_sep by exact Hp. rewrite IH by discriminate.
  reflexivity.
Qed.

Lemma join_nonempty (sep : str) (p : str) (ps : list str) :
  p <> [] -> Py.join sep (p :: ps) <> [].
Proof.
  intros Hp. destruct p as [|c r]; [contradiction|].
  destruct ps; simpl; discriminate.
Qed.

Lemma map_str_int_inj (m m' : list Z) :
  map Py.str_int m = map Py.str_int m' -> m = m'.
Proof.
  revert m'. induction m as [|n m IH]; intros [|n' m'] H;
    try discriminate; [reflexivity|].
  simpl in H. injection H as Hn Hm.
  f_equal; [apply str_int_inj; exact Hn | apply IH; exact Hm].
Qed.

(** X12. The serialization loses nothing: two lists of integers with
    the same serialized form are the same list, elements and order, so
    the argument handed to the reducer determines the set. *)
Theorem mstr_injective (m m' : list Z) : mstr m = mstr m' -> m = m'.
Proof.
  rewrite !mstr_format. intros H. injection H as H.
  apply app_inj_tail in H. destruct H as [H _].
  apply map_str_int_inj.
  assert (Hfree : forall l : list Z,
             Forall (Forall (fun c => Ascii.eqb c "," = false))
               (map Py.str_int l)).
  { intros l. apply Forall_forall. intros p Hp. apply in_map_iff in Hp.
    destruct Hp as (n & <- & _). apply str_int_no_comma. }
  destruct m as [|n m]; destruct m' as [|n' m']; [reflexivity | | |].
  - exfalso. symmetry in H. revert H.
    apply join_nonempty, str_int_nonempty.
  - exfalso. revert H. apply join_nonempty, str_int_nonempty.
  - apply (f_equal (Py.split ",")) in H.
    change (lit ",") with [","] in H.
    rewrite !split_join in H by (try discriminate; apply Hfree).
    exact H.
Qed.

Lemma mstr_injective_witness :
  map Z.succ [3; -7; 9]%Z = [4; -6; 10]%Z.
Proof.
  apply (mstr_injective (map Z.succ [3; -7; 9]%Z) [4; -6; 10]%Z).
  reflexivity.
Defined.

(** ** A sign in front of a pattern *)

Lemma strip_prefix_bits (p : str) :
  Forall (fun c => Py.is_bit c = true) p -> Py.strip_prefix p = p.
Proof.
  intros Hp. destruct Hp as [|c r Hc Hr]; [reflexivity|].
  destruct Hr as [|c1 r1 Hc1 _]; [reflexivity|]. simpl.
  destruct (bit_cases c1 Hc1) as [-> | ->];
    rewrite andb_false_r; reflexivity.
Qed.

Lemma int2_signed_bits (p : str) :
  p <> [] -> Forall (fun c => Py.is_bit c = true) p ->
  Py.int2 ("-" :: p) = Some (- binary 0 p)%Z
  /\ Py.int2 ("+" :: p) = Some (binary 0 p).
Proof.
  intros Hne Hp.
  assert (Hscan : Py.scan_digits None 0%Z (Py.strip_prefix p)
                  = Some (binary 0 p, [])).
  { rewrite (strip_prefix_bits p Hp).
    apply scan_digits_bits; [exact Hp | intros _; exact Hne | discriminate]. }
  split; unfold Py.int2.
  - change (Py.strip_sign (Py.int_lstrip ("-" :: p))) with (true, p).
    cbv iota beta. rewrite Hscan. reflexivity.
  - change (Py.strip_sign (Py.int_lstrip ("+" :: p))) with (false, p).
    cbv iota beta. rewrite Hscan. reflexivity.
Qed.

Lemma signed_values (sg : ascii) (f : Z -> Z) :
  Ascii.eqb sg "x" = false -> Ascii.eqb sg " " = false ->
  (forall q, q <> [] -> Forall (fun c => Py.is_bit c = true) q ->
     Py.int2 (sg :: q) = Some (f (binary 0 q))) ->
  forall p, Forall symbol p -> p <> [] ->
    fromRowToNumbers (sg :: p) = Ok (map f (values 0 p)).
Proof.
  intros Hx Hb Hint p. pattern p. apply wildcard_ind; clear p.
  - intros p Hleaf Hp Hne.
    rewrite fromRowToNumbers_leaf
      by (unfold Py.contains in *; simpl; rewrite Ascii.eqb_sym, Hx;
          exact Hleaf).
    simpl. rewrite Hb, (replace_blank_symbols p Hp).
    rewrite (Hint p Hne (no_wildcard_bits p Hp Hleaf)).
    rewrite (values_bits p Hleaf). reflexivity.
  - intros p Hwild IH0 IH1 Hp Hne.
    destruct (replace_first_symbols "0" p (or_introl eq_refl) Hp)
      as [S0 L0].
    destruct (replace_first_symbols "1" p (or_intror (or_introl eq_refl)) Hp)
      as [S1 L1].
    assert (N : forall q : str, length q = length p -> q <> []).
    { intros q Hq ->. destruct p; [contradiction | discriminate]. }
    rewrite fromRowToNumbers_wild
      by (unfold Py.contains in *; simpl; rewrite Ascii.eqb_sym, Hx;
          exact Hwild).
    unfold lit in *; simpl list_ascii_of_string in *.
    simpl Py.replace_count. rewrite Hx.
    rewrite (IH0 S0 (N _ L0)), (IH1 S1 (N _ L1)). cbn [bind].
    rewrite (values_replace_first p Hwild), map_app. reflexivity.
Qed.

(** X13. A sign in front of a pattern over [0], [1], [x] is accepted,
    since [int(s, 2)] reads it: with [+] the expansion is that of the
    pattern, with [-] it is that expansion with every index negated, so
    indices below zero can reach the sets. *)
Theorem signed_pattern (p : str) :
  Forall symbol p -> p <> [] ->
  fromRowToNumbers ("-" :: p) = Ok (map Z.opp (expansion p))
  /\ fromRowToNumbers ("+" :: p) = Ok (expansion p).
Proof.
  intros Hp Hne. unfold expansion. rewrite <- values_expansion. split.
  - apply (signed_values "-" Z.opp); try reflexivity; try assumption.
    intros q Hq Hb. apply int2_signed_bits; assumption.
  - rewrite <- (map_id (values 0 p)).
    apply (signed_values "+" (fun v => v)); try reflexivity;
      try assumption.
    intros q Hq Hb. apply int2_signed_bits; assumption.
Qed.

Lemma signed_pattern_witness :
  fromRowToNumbers (lit "-x1") = Ok (map Z.opp (expansion (lit "x1")))
  /\ fromRowToNumbers (lit "+x1") = Ok (expansion (lit "x1")).
Proof.
  apply (signed_pattern (lit "x1")).
  - unfold lit. simpl.
    repeat (apply Forall_cons; [unfold symbol; auto|]). apply Forall_nil.
  - discriminate.
Defined.
